(** * weather_data_processor.py: a shallow embedding of WeatherDataProcessor

    The class keeps four attributes (the CSV locator, the ordered pattern
    dictionary, the DataFrame or None, and a logger) and mutates them in its
    methods.  A method is embedded as a function from the object before the
    call to the outcome of the call (a value or a raised exception) paired with
    the object after the call.

    What the module imports is taken as an interface: the regular expression
    engine ([re]), the parser behind [float], and [read_from_web_CSV] of the
    repository's data_ingestion module.  The two pandas operations the module
    uses on a DataFrame (column read and write, and the grouped mean followed
    by [unstack]) are written out on a column-oriented table. *)

From Stdlib Require Import String Ascii List ZArith Bool Lia Floats.
Import ListNotations.
Local Open Scope string_scope.
Local Open Scope list_scope.

Set Implicit Arguments.

(** ** Exceptions and outcomes *)

(** The exceptions that can leave a method of the class. *)
Inductive exn : Type :=
| KeyError (key : string)   (* a column that the DataFrame does not have *)
| TypeError                 (* re.search on a cell that is not a str; a mean over str cells *)
| ValueError                (* float() on a malformed literal; a failed unpacking; a column of the wrong length *)
| StopIteration             (* next() on an exhausted generator *)
| ReError                   (* re.error: the pattern does not compile *)
| IOError (msg : string).   (* whatever read_from_web_CSV raises *)

Inductive result (A : Type) : Type :=
| Ok (a : A)
| Raise (e : exn).
Arguments Ok {A} a.
Arguments Raise {A} e.

Definition is_ok {A} (r : result A) : bool :=
  match r with Ok _ => true | Raise _ => false end.

(** ** Cells and DataFrames *)

(** A cell of a DataFrame.  [CNone] is the missing value: Python's None, which
    pandas stores as NaN in a float column. *)
Inductive cell : Type :=
| CNone
| CStr (s : string)
| CInt (z : Z)
| CFloat (f : float).

(** A DataFrame: the length of its index and its columns in order, each a
    label with the cells of the column in row order.  The labels of a table
    are distinct, as in every table read from a CSV file. *)
Record DataFrame : Type := mkDataFrame {
  nrows : nat;
  columns : list (string * list cell)
}.

Fixpoint assoc_get {V} (name : string) (cols : list (string * V)) : option V :=
  match cols with
  | [] => None
  | (n, v) :: rest => if String.eqb n name then Some v else assoc_get name rest
  end.

(** Writing under a label: an existing column is replaced where it stands, a
    new one is appended after the last column. *)
Fixpoint assoc_set {V} (name : string) (v : V) (cols : list (string * V)) : list (string * V) :=
  match cols with
  | [] => [(name, v)]
  | (n, w) :: rest =>
      if String.eqb n name then (n, v) :: rest else (n, w) :: assoc_set name v rest
  end.

Definition get_column (name : string) (df : DataFrame) : option (list cell) :=
  assoc_get name (columns df).

Definition column_names (df : DataFrame) : list string := map fst (columns df).

(** [df[name]]: KeyError when there is no such column. *)
Definition getitem (df : DataFrame) (name : string) : result (list cell) :=
  match get_column name df with
  | Some c => Ok c
  | None => Raise (KeyError name)
  end.

(** [df[name] = values] for a tuple of values: pandas refuses a tuple whose
    length is not the length of the index. *)
Definition setitem (df : DataFrame) (name : string) (values : list cell) : result DataFrame :=
  if Nat.eqb (length values) (nrows df)
  then Ok (mkDataFrame (nrows df) (assoc_set name values (columns df)))
  else Raise ValueError.

(** ** The logger *)

Definition DEBUG : Z := 10.
Definition INFO : Z := 20.
Definition WARNING : Z := 30.

(** The state of the logger named after the class: [level] 0 is NOTSET,
    [handlers] holds the format string of each attached handler, [emitted] the
    records the logger has handled, oldest first. *)
Record Logger : Type := mkLogger {
  propagate : bool;
  disabled : bool;
  level : Z;
  handlers : list string;
  emitted : list (Z * string)
}.

(** A logger whose level is NOTSET takes the level of the root logger, which is
    WARNING unless the application configured it. *)
Definition effective_level (lg : Logger) : Z :=
  if Z.eqb (level lg) 0 then WARNING else level lg.

Definition is_enabled_for (lg : Logger) (lvl : Z) : bool :=
  negb (disabled lg) && Z.leb (effective_level lg) lvl.

Definition log_record (lvl : Z) (msg : string) (lg : Logger) : Logger :=
  if is_enabled_for lg lvl
  then mkLogger (propagate lg) (disabled lg) (level lg) (handlers lg)
                (emitted lg ++ [(lvl, msg)])
  else lg.

Definition upper_ascii (c : ascii) : ascii :=
  let n := nat_of_ascii c in
  if (97 <=? n)%nat && (n <=? 122)%nat then ascii_of_nat (n - 32) else c.

Fixpoint upper (s : string) : string :=
  match s with
  | EmptyString => EmptyString
  | String c rest => String (upper_ascii c) (upper rest)
  end.

Definition log_format : string :=
  "%(asctime)s - %(name)s - %(levelname)s - %(message)s".

(** [initialize_logging], on the current state of the named logger. *)
Definition initialize_logging (logging_level : string) (lg : Logger) : Logger :=
  let lg := mkLogger false (disabled lg) (level lg) (handlers lg) (emitted lg) in
  let configure (log_level : Z) :=
    let hs := match handlers lg with [] => [log_format] | _ => handlers lg end in
    mkLogger (propagate lg) (disabled lg) log_level hs (emitted lg) in
  if String.eqb (upper logging_level) "DEBUG" then configure DEBUG
  else if String.eqb (upper logging_level) "INFO" then configure INFO
  else if String.eqb (upper logging_level) "NONE"
       then mkLogger (propagate lg) true (level lg) (handlers lg) (emitted lg)
       else configure INFO.

(** ** The processor object *)

Record WeatherDataProcessor : Type := mkProcessor {
  weather_station_data : string;
  patterns : list (string * string);   (* the dict, in insertion order *)
  weather_df : option DataFrame;
  logger : Logger
}.

Record Config : Type := mkConfig {
  weather_csv_path : string;
  regex_patterns : list (string * string)
}.

(** [__init__], given the state of the logger that [logging.getLogger] hands
    out for the class. *)
Definition __init__ (config_params : Config) (logging_level : string) (lg : Logger)
  : WeatherDataProcessor :=
  mkProcessor (weather_csv_path config_params) (regex_patterns config_params) None
              (initialize_logging logging_level lg).

Definition set_weather_df (d : option DataFrame) (self : WeatherDataProcessor)
  : WeatherDataProcessor :=
  mkProcessor (weather_station_data self) (patterns self) d (logger self).

Definition set_logger (lg : Logger) (self : WeatherDataProcessor) : WeatherDataProcessor :=
  mkProcessor (weather_station_data self) (patterns self) (weather_df self) lg.

(** ** Methods as state transformers that may raise *)

Definition M (A : Type) : Type :=
  WeatherDataProcessor -> result A * WeatherDataProcessor.

Definition ret {A} (a : A) : M A := fun self => (Ok a, self).

Definition bind {A B} (m : M A) (f : A -> M B) : M B :=
  fun self =>
    match m self with
    | (Ok a, self') => f a self'
    | (Raise e, self') => (Raise e, self')
    end.

Definition lift {A} (r : result A) : M A := fun self => (r, self).

Definition get_df : M (option DataFrame) := fun self => (Ok (weather_df self), self).

Definition put_df (d : option DataFrame) : M unit :=
  fun self => (Ok tt, set_weather_df d self).

Definition log (lvl : Z) (msg : string) : M unit :=
  fun self => (Ok tt, set_logger (log_record lvl msg (logger self)) self).

Declare Scope py_scope.
Delimit Scope py_scope with py.
Notation "x <- m ;; k" := (bind m (fun x => k))
  (at level 61, m at next level, right associativity) : py_scope.
Notation "m ;; k" := (bind m (fun _ => k))
  (at level 61, right associativity) : py_scope.
Local Open Scope py_scope.

(** [Series.apply(f)]: [f] on each cell in row order; the first exception
    ends the loop. *)
Fixpoint apply_series {A} (f : cell -> M A) (col : list cell) : M (list A) :=
  match col with
  | [] => ret []
  | c :: rest =>
      a <- f c ;;
      r <- apply_series f rest ;;
      ret (a :: r)
  end.

(** ** What the module imports *)

(** The interface of the imported code.  [re_compile] is None when the pattern
    does not compile ([re.error]); [regex_search r s] is the [groups()] of the
    leftmost match of [r] in [s], a group that took no part in the match being
    None, or None when [r] matches nowhere in [s]; [float_of_str] is [float] on
    a str, None standing for its ValueError; [read_from_web_CSV] belongs to
    the repository's data_ingestion module.  [compensated_sum] tells how the
    installed pandas adds up the values of a group for its mean: with a
    compensation term carried along the running sum (the Kahan loop of its
    group_mean), or by plain addition; releases differ in this, and the
    module pins none. *)
Class PyLib : Type := {
  regex : Type;
  re_compile : string -> option regex;
  regex_search : regex -> string -> option (list (option string));
  float_of_str : string -> option float;
  read_from_web_CSV : string -> result DataFrame;
  compensated_sum : bool
}.

(** The float nearest to an integer. *)
Definition Z_to_float (z : Z) : float :=
  SF2Prim (binary_normalize prec emax z 0 false).

(** An implementation of the interface on a fragment of the pattern syntax
    (literal characters, [.], [\d], [\s], escaped punctuation, groups,
    alternation and the postfix operators [*], [+], [?]) and of the float
    syntax (unsigned decimal literals of at most fifteen digits), on ASCII
    text, which is enough to run the patterns of the module docstring.  What
    lies outside the fragment is reported as not compiling or not parsing. *)
Module Fragment.

Inductive rx : Type :=
| Eps
| Chr (c : ascii)
| Digit
| Space
| AnyChar
| Seq (r1 r2 : rx)
| Alt (r1 r2 : rx)
| Star (r : rx)
| Group (i : nat) (r : rx).

Definition Plus (r : rx) : rx := Seq r (Star r).
Definition Opt (r : rx) : rx := Alt r Eps.

Definition caps : Type := list (option (list ascii)).

Fixpoint set_cap (i : nat) (v : list ascii) (c : caps) : caps :=
  match c, i with
  | [], _ => []
  | _ :: rest, O => Some v :: rest
  | x :: rest, S j => x :: set_cap j v rest
  end.

Definition is_digit (c : ascii) : bool :=
  let n := nat_of_ascii c in (48 <=? n)%nat && (n <=? 57)%nat.

Definition is_space (c : ascii) : bool :=
  let n := nat_of_ascii c in
  Nat.eqb n 32 || ((9 <=? n)%nat && (n <=? 13)%nat)
  || ((28 <=? n)%nat && (n <=? 31)%nat).

Definition step_char (p : ascii -> bool) (s : list ascii) (c : caps)
           (k : list ascii -> caps -> option caps) : option caps :=
  match s with
  | a :: s' => if p a then k s' c else None
  | [] => None
  end.

(** Backtracking match of [r] at the head of [s], greedy, the left branch of
    an alternation first; [k] is what remains to be matched after [r].  An
    iteration of a star that consumes nothing is the last one. *)
Fixpoint mtch (r : rx) (s : list ascii) (c : caps)
         (k : list ascii -> caps -> option caps) {struct r} : option caps :=
  match r with
  | Eps => k s c
  | Chr a => step_char (Ascii.eqb a) s c k
  | Digit => step_char is_digit s c k
  | Space => step_char is_space s c k
  | AnyChar => step_char (fun a => negb (Ascii.eqb a "010"%char)) s c k
  | Seq r1 r2 => mtch r1 s c (fun s' c' => mtch r2 s' c' k)
  | Alt r1 r2 =>
      match mtch r1 s c k with
      | Some c' => Some c'
      | None => mtch r2 s c k
      end
  | Star r1 =>
      (fix loop (n : nat) (s : list ascii) (c : caps) {struct n} : option caps :=
         match n with
         | O => k s c
         | S n' =>
             match mtch r1 s c
                        (fun s' c' =>
                           if (length s' <? length s)%nat then loop n' s' c'
                           else k s' c') with
             | Some c' => Some c'
             | None => k s c
             end
         end) (length s) s c
  | Group i r1 =>
      mtch r1 s c
           (fun s' c' => k s' (set_cap i (firstn (length s - length s') s) c'))
  end.

Fixpoint search_from (r : rx) (ngroups : nat) (s : list ascii) : option caps :=
  match mtch r s (repeat None ngroups) (fun _ c => Some c) with
  | Some c => Some c
  | None =>
      match s with
      | [] => None
      | _ :: s' => search_from r ngroups s'
      end
  end.

Definition is_postfix (c : ascii) : bool :=
  Ascii.eqb c "*" || Ascii.eqb c "+" || Ascii.eqb c "?".

Definition is_special (c : ascii) : bool :=
  is_postfix c || Ascii.eqb c "(" || Ascii.eqb c ")" || Ascii.eqb c "|"
  || Ascii.eqb c "[" || Ascii.eqb c "]" || Ascii.eqb c "{" || Ascii.eqb c "}"
  || Ascii.eqb c "^" || Ascii.eqb c "$" || Ascii.eqb c "\".

Definition is_alnum (c : ascii) : bool :=
  let n := nat_of_ascii c in
  is_digit c || ((65 <=? n)%nat && (n <=? 90)%nat) || ((97 <=? n)%nat && (n <=? 122)%nat).

(** One postfix operator after an atom; a second one in a row is outside the
    fragment. *)
Definition postfix (r : rx) (s : list ascii) (n : nat) : option (rx * list ascii * nat) :=
  match s with
  | op :: s' =>
      if is_postfix op then
        match s' with
        | op2 :: _ => if is_postfix op2 then None else
            Some (if Ascii.eqb op "*" then Star r
                  else if Ascii.eqb op "+" then Plus r else Opt r, s', n)
        | [] =>
            Some (if Ascii.eqb op "*" then Star r
                  else if Ascii.eqb op "+" then Plus r else Opt r, s', n)
        end
      else Some (r, s, n)
  | [] => Some (r, s, n)
  end.

(** Recursive descent; [n] is the number of groups opened so far, so groups
    are numbered by their opening parenthesis. *)
Fixpoint parse_alt (fuel : nat) (s : list ascii) (n : nat) {struct fuel}
  : option (rx * list ascii * nat) :=
  match fuel with
  | O => None
  | S f =>
      match parse_seq f s n with
      | Some (r1, "|"%char :: s', n') =>
          match parse_alt f s' n' with
          | Some (r2, s'', n'') => Some (Alt r1 r2, s'', n'')
          | None => None
          end
      | other => other
      end
  end
with parse_seq (fuel : nat) (s : list ascii) (n : nat) {struct fuel}
  : option (rx * list ascii * nat) :=
  match fuel with
  | O => None
  | S f =>
      match s with
      | [] => Some (Eps, s, n)
      | c :: _ =>
          if Ascii.eqb c ")" || Ascii.eqb c "|" then Some (Eps, s, n)
          else
            match parse_atom f s n with
            | Some (r1, s', n') =>
                match parse_seq f s' n' with
                | Some (r2, s'', n'') => Some (Seq r1 r2, s'', n'')
                | None => None
                end
            | None => None
            end
      end
  end
with parse_atom (fuel : nat) (s : list ascii) (n : nat) {struct fuel}
  : option (rx * list ascii * nat) :=
  match fuel with
  | O => None
  | S f =>
      match s with
      | [] => None
      | "("%char :: s' =>
          match parse_alt f s' (S n) with
          | Some (r, ")"%char :: s'', n') => postfix (Group n r) s'' n'
          | _ => None
          end
      | "\"%char :: c :: s' =>
          if Ascii.eqb c "d" then postfix Digit s' n
          else if Ascii.eqb c "s" then postfix Space s' n
          else if is_alnum c then None
          else postfix (Chr c) s' n
      | "."%char :: s' => postfix AnyChar s' n
      | c :: s' => if is_special c then None else postfix (Chr c) s' n
      end
  end.

Definition compile (pattern : string) : option (rx * nat) :=
  let s := list_ascii_of_string pattern in
  match parse_alt (4 * length s + 4) s 0 with
  | Some (r, [], n) => Some (r, n)
  | _ => None
  end.

Definition search (r : rx * nat) (s : string) : option (list (option string)) :=
  match search_from (fst r) (snd r) (list_ascii_of_string s) with
  | Some c => Some (map (option_map string_of_list_ascii) c)
  | None => None
  end.

(** Decimal digits read as a number, most significant first. *)
Fixpoint digits_value (acc : Z) (s : list ascii) : option (Z * nat) :=
  match s with
  | [] => Some (acc, O)
  | c :: s' =>
      if is_digit c then
        match digits_value (10 * acc + (Z.of_nat (nat_of_ascii c) - 48)) s' with
        | Some (v, k) => Some (v, S k)
        | None => None
        end
      else None
  end.

Fixpoint split_dot (s : list ascii) : list ascii * option (list ascii) :=
  match s with
  | [] => ([], None)
  | c :: s' =>
      if Ascii.eqb c "." then ([], Some s')
      else let (a, b) := split_dot s' in (c :: a, b)
  end.

(** [digits] or [digits.digits]: both the digits read as one integer and the
    power of ten are floats exactly, so their quotient is the float nearest
    to the literal. *)
Definition parse_float (s : string) : option float :=
  let (ip, fp) := split_dot (list_ascii_of_string s) in
  let fp' := match fp with Some d => d | None => [] end in
  match ip, fp with
  | [], _ | _, Some [] => None
  | _, _ =>
      if (15 <? length ip + length fp')%nat then None
      else
        match digits_value 0 (ip ++ fp') with
        | Some (v, _) => Some (Z_to_float v / Z_to_float (10 ^ Z.of_nat (length fp')))%float
        | None => None
        end
  end.

End Fragment.

(** ** Grouping keys and the table of means *)

(** A label of a group: a str, an int, or a float that is not NaN, the two
    zeros being one label.  A missing cell (None, NaN) is no label. *)
Inductive key : Type :=
| KStr (s : string)
| KInt (z : Z)
| KFloat (f : spec_float).

Definition key_of (c : cell) : option key :=
  match c with
  | CNone => None
  | CStr s => Some (KStr s)
  | CInt z => Some (KInt z)
  | CFloat f =>
      match Prim2SF f with
      | S754_nan => None
      | S754_zero _ => Some (KFloat (S754_zero false))
      | x => Some (KFloat x)
      end
  end.

Definition spec_float_eqb (a b : spec_float) : bool :=
  match a, b with
  | S754_zero s, S754_zero t => Bool.eqb s t
  | S754_infinity s, S754_infinity t => Bool.eqb s t
  | S754_nan, S754_nan => true
  | S754_finite s m e, S754_finite t n f => Bool.eqb s t && Pos.eqb m n && Z.eqb e f
  | _, _ => false
  end.

Definition key_eqb (a b : key) : bool :=
  match a, b with
  | KStr s, KStr t => String.eqb s t
  | KInt x, KInt y => Z.eqb x y
  | KFloat f, KFloat g => spec_float_eqb f g
  | _, _ => false
  end.

Definition group_eqb (a b : key * key) : bool :=
  key_eqb (fst a) (fst b) && key_eqb (snd a) (snd b).

(** The order pandas sorts labels in: numbers by value, strings by code
    point.  Between labels of different types the order is a choice of this
    model (ints, then floats, then strings). *)
Definition key_rank (a : key) : nat :=
  match a with KInt _ => 0 | KFloat _ => 1 | KStr _ => 2 end.

Definition key_ltb (a b : key) : bool :=
  match a, b with
  | KStr s, KStr t => String.ltb s t
  | KInt x, KInt y => Z.ltb x y
  | KFloat f, KFloat g => SFltb f g
  | _, _ => (key_rank a <? key_rank b)%nat
  end.

Fixpoint insert_key (k : key) (l : list key) : list key :=
  match l with
  | [] => [k]
  | x :: rest =>
      if key_eqb k x then l
      else if key_ltb k x then k :: l
      else x :: insert_key k rest
  end.

(** The distinct labels of a list, sorted. *)
Definition sorted_keys (l : list key) : list key := fold_right insert_key [] l.

(** The running state of one group, as pandas' group_mean keeps it: the sum
    of the values seen, the compensation term of that sum, and the number of
    values. *)
Record GroupState : Type := mkGroupState {
  sumx : float;
  compensation : float;
  nobs : nat
}.

Definition group_init : GroupState := mkGroupState 0 0 0.

(** One more value, by plain addition. *)
Definition add_plain (a : GroupState) (v : float) : GroupState :=
  mkGroupState (sumx a + v) (compensation a) (S (nobs a)).

(** One more value, with compensation: the running error of the sum is
    carried along and taken off the next value (a compensation that is NaN,
    after an infinite value, is reset). *)
Definition add_compensated (a : GroupState) (v : float) : GroupState :=
  let y := (v - compensation a)%float in
  let t := (sumx a + y)%float in
  let c := (t - sumx a - y)%float in
  mkGroupState t (if PrimFloat.eqb c c then c else 0%float) (S (nobs a)).

(** The mean of a group: the sum over the count, NaN when every value of the
    group is missing. *)
Definition mean_of (a : GroupState) : float :=
  match nobs a with
  | O => PrimFloat.nan
  | S _ => (sumx a / Z_to_float (Z.of_nat (nobs a)))%float
  end.

(** A value as the mean sees it: missing values (None, NaN) are skipped, ints
    count as floats, and a str is no number. *)
Definition as_number (c : cell) : result (option float) :=
  match c with
  | CNone => Ok None
  | CFloat f => Ok (if PrimFloat.is_nan f then None else Some f)
  | CInt z => Ok (Some (Z_to_float z))
  | CStr _ => Raise TypeError
  end.

(** The value of a cell when it is present. *)
Definition present (c : cell) : option float :=
  match as_number c with
  | Ok x => x
  | Raise _ => None
  end.

(** No cell of the column is a str.  A column that holds a str has the object
    dtype, and the mean of such a column is refused whichever rows the str
    is in. *)
Definition numeric_column (vs : list cell) : bool :=
  forallb (fun c => match c with CStr _ => false | _ => true end) vs.

(** The labels [groupby] is called with. *)
Definition grouping_labels : list string := ["Weather_station_ID"; "Measurement"].

Definition has_column (name : string) (df : DataFrame) : bool :=
  match get_column name df with Some _ => true | None => false end.

(** pandas reads the list given as [by] as one label for each row, not as
    column labels, when the list is as long as the index and one of its
    entries is no column of the table. *)
Definition by_is_row_labels (df : DataFrame) : bool :=
  Nat.eqb (length grouping_labels) (nrows df)
  && negb (forallb (fun g => has_column g df) grouping_labels).

Definition Groups : Type := list ((key * key) * GroupState).

(** What [mean] returns: a series indexed by the (station, measurement) pairs
    of the groups, or, when the list was read as row labels, a series indexed
    by those labels. *)
Inductive Series : Type :=
| ByColumns (gs : Groups)
| ByRowLabels (means : list (key * float)).

Fixpoint find_group (g : key * key) (gs : Groups) : option GroupState :=
  match gs with
  | [] => None
  | (h, a) :: rest => if group_eqb h g then Some a else find_group g rest
  end.

(** The unstacked result: one row per station seen, one column per
    measurement seen, NaN where a station has no group for a measurement. *)
Record MeansTable : Type := mkMeansTable {
  mt_index : list key;
  mt_columns : list key;
  mt_values : list (list float)
}.

Definition unstack (gs : Groups) : MeansTable :=
  let idx := sorted_keys (map (fun g => fst (fst g)) gs) in
  let cols := sorted_keys (map (fun g => snd (fst g)) gs) in
  mkMeansTable idx cols
    (map (fun s =>
            map (fun k => match find_group (s, k) gs with
                          | Some a => mean_of a
                          | None => PrimFloat.nan
                          end) cols) idx).

(** [means.unstack()]: a series whose index has one level cannot be
    unstacked. *)
Definition unstack_series (means : Series) : result MeansTable :=
  match means with
  | ByColumns gs => Ok (unstack gs)
  | ByRowLabels _ => Raise ValueError
  end.

(** Reading by label: the entry of [vals] at the position of [k] in [labels]. *)
Fixpoint at_label {A} (labels : list key) (vals : list A) (k : key) : option A :=
  match labels, vals with
  | l :: labels', v :: vals' => if key_eqb l k then Some v else at_label labels' vals' k
  | _, _ => None
  end.

(** [means.loc[s, k]] *)
Definition mt_loc (mt : MeansTable) (s k : key) : option float :=
  match at_label (mt_index mt) (mt_values mt) s with
  | Some row => at_label (mt_columns mt) row k
  | None => None
  end.

Section Grouping.

Context {lib : PyLib}.

(** One more value in the sum of a group, as the installed pandas adds. *)
Definition add_value (a : GroupState) (v : float) : GroupState :=
  if compensated_sum then add_compensated a v else add_plain a v.

Definition observe (x : option float) (a : GroupState) : GroupState :=
  match x with
  | Some v => add_value a v
  | None => a
  end.

Fixpoint add_obs (g : key * key) (x : option float) (gs : Groups) : Groups :=
  match gs with
  | [] => [(g, observe x group_init)]
  | (h, a) :: rest =>
      if group_eqb h g then (h, observe x a) :: rest
      else (h, a) :: add_obs g x rest
  end.

(** One row of the three columns: a row with a missing label belongs to no
    group (dropna). *)
Definition group_step (gs : Groups) (row : cell * (cell * cell)) : result Groups :=
  match key_of (fst row), key_of (fst (snd row)) with
  | Some ks, Some km =>
      match as_number (snd (snd row)) with
      | Ok x => Ok (add_obs (ks, km) x gs)
      | Raise e => Raise e
      end
  | _, _ => Ok gs
  end.

Fixpoint group_rows (rows : list (cell * (cell * cell))) (gs : Groups) : result Groups :=
  match rows with
  | [] => Ok gs
  | r :: rest =>
      match group_step gs r with
      | Ok gs' => group_rows rest gs'
      | Raise e => Raise e
      end
  end.

(** The series of the row-label reading: every row is a group of its own
    under its label, the labels sorted. *)
Definition label_means (rows : list (string * cell)) : list (key * float) :=
  let labels := map (fun r => KStr (fst r)) rows in
  map (fun k => (k, match at_label labels (map snd rows) k with
                    | Some c => mean_of (observe (present c) group_init)
                    | None => PrimFloat.nan
                    end))
      (sorted_keys labels).

(** [df.groupby(by=['Weather_station_ID', 'Measurement'])['Value'].mean()]:
    [groupby] looks the labels up (or takes them as row labels), the
    selection looks Value up, and [mean] needs a numeric column. *)
Definition groupby_mean (df : DataFrame) : result Series :=
  if by_is_row_labels df then
    match get_column "Value" df with
    | None => Raise (KeyError "Column not found: Value")
    | Some vs =>
        if numeric_column vs
        then Ok (ByRowLabels (label_means (combine grouping_labels vs)))
        else Raise TypeError
    end
  else
    match getitem df "Weather_station_ID" with
    | Raise e => Raise e
    | Ok ss =>
        match getitem df "Measurement" with
        | Raise e => Raise e
        | Ok ms =>
            match get_column "Value" df with
            | None => Raise (KeyError "Column not found: Value")
            | Some vs =>
                if numeric_column vs then
                  match group_rows (combine ss (combine ms vs)) [] with
                  | Ok gs => Ok (ByColumns gs)
                  | Raise e => Raise e
                  end
                else Raise TypeError
            end
        end
    end.

(** ** The mean of a group, said directly *)

(** The row carries the labels of the group [g]. *)
Definition in_group (g : key * key) (row : cell * (cell * cell)) : bool :=
  match key_of (fst row), key_of (fst (snd row)) with
  | Some ks, Some km => group_eqb (ks, km) g
  | _, _ => false
  end.

(** The present values of the rows of the group [g], in row order. *)
Fixpoint group_values (g : key * key) (rows : list (cell * (cell * cell))) : list float :=
  match rows with
  | [] => []
  | r :: rest =>
      if in_group g r then
        match present (snd (snd r)) with
        | Some v => v :: group_values g rest
        | None => group_values g rest
        end
      else group_values g rest
  end.

(** The state of the group [g] after the rows, from its state before them. *)
Fixpoint state_after (g : key * key) (rows : list (cell * (cell * cell)))
         (a : option GroupState) : option GroupState :=
  match rows with
  | [] => a
  | r :: rest =>
      if in_group g r
      then state_after g rest
             (Some (observe (present (snd (snd r)))
                            (match a with Some x => x | None => group_init end)))
      else state_after g rest a
  end.

End Grouping.

(** The sum of a list of floats, each added to the sum of those before it,
    and the arithmetic mean: that sum over the count. *)
Definition fsum (l : list float) : float := fold_left PrimFloat.add l 0%float.

Definition arithmetic_mean (l : list float) : float :=
  (fsum l / Z_to_float (Z.of_nat (length l)))%float.

(** The additions of [fsum] lose nothing that a compensation term would
    recover: at each step, the value added and the sum before it, taken off
    the new sum, leave zero.  On such a list the compensated sum and the
    plain sum are the same float. *)
Fixpoint exact_from (s : float) (l : list float) : Prop :=
  match l with
  | [] => True
  | v :: rest => (s + v - s - v)%float = 0%float /\ exact_from (s + v)%float rest
  end.

Definition exactly_summable (l : list float) : Prop := exact_from 0%float l.

(** ** The methods of the class *)

Section Methods.

Context {lib : PyLib}.

(** [re.search(pattern, message)]: the pattern is compiled first, then the
    message must be a str. *)
Definition re_search (pattern : string) (message : cell)
  : result (option (list (option string))) :=
  match re_compile pattern with
  | None => Raise ReError
  | Some r =>
      match message with
      | CStr s => Ok (regex_search r s)
      | _ => Raise TypeError
      end
  end.

(** [next((x for x in match.groups() if x is not None))] *)
Fixpoint next_not_none (groups : list (option string)) : result string :=
  match groups with
  | [] => Raise StopIteration
  | Some x :: _ => Ok x
  | None :: rest => next_not_none rest
  end.

(** [float(x)] *)
Definition py_float (x : string) : result float :=
  match float_of_str x with
  | Some v => Ok v
  | None => Raise ValueError
  end.

(** [float(next(...))] on the groups of a match. *)
Definition captured_value (groups : list (option string)) : result float :=
  match next_not_none groups with
  | Ok x => py_float x
  | Raise e => Raise e
  end.

(** The loop of [extract_measurement] over the items of the dictionary that
    remain. *)
Fixpoint extract_loop (items : list (string * string)) (message : cell)
  : M (option string * option float) :=
  match items with
  | [] =>
      log DEBUG "No measurement match found." ;;
      ret (None, None)
  | (key, pattern) :: rest =>
      mt <- lift (re_search pattern message) ;;
      match mt with
      | Some groups =>
          log DEBUG ("Measurement extracted: " ++ key) ;;
          v <- lift (captured_value groups) ;;
          ret (Some key, Some v)
      | None => extract_loop rest message
      end
  end.

Definition extract_measurement (message : cell) : M (option string * option float) :=
  fun self => extract_loop (patterns self) message self.

(** The two components of a result as the cells pandas stores. *)
Definition measurement_cell (k : option string) : cell :=
  match k with Some s => CStr s | None => CNone end.

Definition value_cell (v : option float) : cell :=
  match v with Some f => CFloat f | None => CNone end.

(** [zip] over the unpacked [result], a sequence of 2-tuples: nothing when
    there is no tuple, else the first components and the second components. *)
Definition zip_star (result : list (option string * option float)) : list (list cell) :=
  match result with
  | [] => []
  | _ :: _ => [map (fun t => measurement_cell (fst t)) result;
               map (fun t => value_cell (snd t)) result]
  end.

(** Unpacking into two targets. *)
Definition unpack2 {A} (l : list A) : result (A * A) :=
  match l with
  | [a; b] => Ok (a, b)
  | _ => Raise ValueError
  end.

(** [self.weather_df[name] = values] *)
Definition assign_column (name : string) (values : list cell) : M unit :=
  d <- get_df ;;
  match d with
  | Some df =>
      df' <- lift (setitem df name values) ;;
      put_df (Some df')
  | None => lift (Raise TypeError)
  end.

Definition process_messages : M (option DataFrame) :=
  d <- get_df ;;
  match d with
  | Some df =>
      col <- lift (getitem df "Message") ;;
      result <- apply_series extract_measurement col ;;
      cols <- lift (unpack2 (zip_star result)) ;;
      assign_column "Measurement" (fst cols) ;;
      assign_column "Value" (snd cols) ;;
      log INFO "Messages processed and measurements extracted."
  | None =>
      log WARNING "weather_df is not initialized, skipping message processing."
  end ;;
  get_df.

(** The table [process_messages] leaves behind when the extraction of the
    rows gave [result]. *)
Definition augmented (df : DataFrame) (result : list (option string * option float))
  : DataFrame :=
  mkDataFrame (nrows df)
    (assoc_set "Value" (map (fun t => value_cell (snd t)) result)
       (assoc_set "Measurement" (map (fun t => measurement_cell (fst t)) result)
          (columns df))).

Definition weather_station_mapping : M unit :=
  fun self =>
    (df <- lift (read_from_web_CSV (weather_station_data self)) ;;
     put_df (Some df) ;;
     log INFO "Successfully loaded weather station data from the web.") self.

Definition calculate_means : M (option MeansTable) :=
  d <- get_df ;;
  match d with
  | Some df =>
      means <- lift (groupby_mean df) ;;
      log INFO "Mean values calculated." ;;
      mt <- lift (unstack_series means) ;;
      ret (Some mt)
  | None =>
      log WARNING "weather_df is not initialized, cannot calculate means." ;;
      ret None
  end.

(** [process] has no return statement: the call evaluates to None. *)
Definition process : M (option DataFrame) :=
  weather_station_mapping ;;
  process_messages ;;
  log INFO "Data processing completed." ;;
  ret None.

(** The pattern of an item of the dictionary matches nowhere in the message. *)
Definition no_match (message : cell) (item : string * string) : Prop :=
  re_search (snd item) message = Ok None.

End Methods.

(** The labels of a table after a column was written under [name]. *)
Definition add_label (name : string) (labels : list string) : list string :=
  if existsb (fun n => String.eqb n name) labels then labels else labels ++ [name].

(** ** The fragment as an instance of the interface *)

(** The loader of the instance: three stations report rainfall and
    temperature under the locator "weather.csv", "empty.csv" is a table with
    its columns and no row, and nothing else can be read. *)
Definition sample_df : DataFrame :=
  mkDataFrame 4
    [("Weather_station_ID", [CStr "S1"; CStr "S1"; CStr "S2"; CStr "S3"]);
     ("Message", [CStr "rain 10 mm"; CStr "rain 20.0 mm"; CStr "temp 21.5 C"; CStr "fog"])].

Definition empty_df : DataFrame :=
  mkDataFrame 0 [("Weather_station_ID", []); ("Message", [])].

Definition sample_loader (locator : string) : result DataFrame :=
  if String.eqb locator "weather.csv" then Ok sample_df
  else if String.eqb locator "empty.csv" then Ok empty_df
  else Raise (IOError locator).

#[export] Instance fragment_lib : PyLib := {
  regex := Fragment.rx * nat;
  re_compile := Fragment.compile;
  regex_search := Fragment.search;
  float_of_str := Fragment.parse_float;
  read_from_web_CSV := sample_loader;
  compensated_sum := false
}.

(** The patterns of the module docstring. *)
Definition docstring_patterns : list (string * string) :=
  [("Rainfall", "(\d+(\.\d+)?)\s?mm"); ("Temperature", "(\d+(\.\d+)?)\s?C")].

Definition fresh_logger : Logger := mkLogger true false 0 [] [].

Definition sample_processor : WeatherDataProcessor :=
  __init__ (mkConfig "weather.csv" docstring_patterns) "DEBUG" fresh_logger.

Definition empty_processor : WeatherDataProcessor :=
  __init__ (mkConfig "empty.csv" docstring_patterns) "INFO" fresh_logger.

(** A third pattern after the two of the docstring, one that matches every
    message with a digit in it. *)
Definition priority_patterns : list (string * string) :=
  docstring_patterns ++ [("Reading", "(\d+)")].

Definition priority_processor : WeatherDataProcessor :=
  __init__ (mkConfig "weather.csv" priority_patterns) "NONE" fresh_logger.

(** The two sample objects after the load step. *)
Definition loaded_sample : WeatherDataProcessor :=
  snd (weather_station_mapping sample_processor).

Definition loaded_empty : WeatherDataProcessor :=
  snd (weather_station_mapping empty_processor).

(** Two rows of station S1 that both report rainfall. *)
Definition two_rows_df : DataFrame :=
  mkDataFrame 2
    [("Weather_station_ID", [CStr "S1"; CStr "S1"]);
     ("Message", [CStr "10.0 mm"; CStr "20.0 mm"]);
     ("Measurement", [CStr "Rainfall"; CStr "Rainfall"]);
     ("Value", [CFloat 10; CFloat 20])].

Definition two_rows_processor : WeatherDataProcessor :=
  set_weather_df (Some two_rows_df) sample_processor.

(** ** Notions used to state further properties *)

(** Every column of the table has one cell for each row. *)
Definition well_formed (df : DataFrame) : Prop :=
  Forall (fun c => length (snd c) = nrows df) (columns df).

(** The group took part in the match. *)
Definition participates (g : option string) : bool :=
  match g with Some _ => true | None => false end.

(** The logger after one [initialize_logging] for each level of the list, as
    when that many objects are constructed one after the other. *)
Definition initialize_all (levels : list string) (lg : Logger) : Logger :=
  fold_left (fun l lvl => initialize_logging lvl l) levels lg.

(** The values extracted for station [s] under the kind [kind]: the rows are
    the station cell of a row with the result of [extract_measurement] on its
    message; a NaN counts as missing. *)
Fixpoint extracted_values (s : key) (kind : string)
         (rows : list (cell * (option string * option float))) : list float :=
  match rows with
  | [] => []
  | (c, (Some k, Some v)) :: rest =>
      match key_of c with
      | Some s' =>
          if key_eqb s' s && String.eqb k kind && negb (PrimFloat.is_nan v)
          then v :: extracted_values s kind rest
          else extracted_values s kind rest
      | None => extracted_values s kind rest
      end
  | _ :: rest => extracted_values s kind rest
  end.

(** A table in which station S3 has a message that matches nothing and S4 a
    missing message. *)
Definition gap_df : DataFrame :=
  mkDataFrame 3
    [("Weather_station_ID", [CStr "S1"; CStr "S3"; CStr "S4"]);
     ("Message", [CStr "rain 3 mm"; CStr "fog"; CNone])].

Definition gap_processor : WeatherDataProcessor :=
  set_weather_df (Some gap_df) sample_processor.

(** An object whose first pattern does not compile. *)
Definition broken_processor : WeatherDataProcessor :=
  __init__ (mkConfig "weather.csv" [("Rainfall", "(\d+"); ("Temperature", "(\d+)C")])
           "INFO" fresh_logger.

(** What [extract_measurement] gives on the four messages of the sample
    table, the table [process_messages] makes of them, and its means. *)
Definition sample_result : list (option string * option float) :=
  [(Some "Rainfall", Some 10%float); (Some "Rainfall", Some 20%float);
   (Some "Temperature", Some 21.5%float); (None, None)].

Definition processed_df : DataFrame := augmented sample_df sample_result.

Definition sample_means : MeansTable :=
  mkMeansTable [KStr "S1"; KStr "S2"] [KStr "Rainfall"; KStr "Temperature"]
               [[15%float; PrimFloat.nan]; [PrimFloat.nan; 21.5%float]].

(** A table without a Message column, and a locator that cannot be read. *)
Definition no_message_df : DataFrame :=
  mkDataFrame 1 [("Weather_station_ID", [CStr "S1"])].

Definition no_message_processor : WeatherDataProcessor :=
  set_weather_df (Some no_message_df) sample_processor.

Definition unreachable_processor : WeatherDataProcessor :=
  __init__ (mkConfig "nowhere.csv" docstring_patterns) "INFO" fresh_logger.

(** The interface with a pandas that compensates its sums, the rest as in
    the fragment. *)
Definition compensating_lib : PyLib := {|
  regex := Fragment.rx * nat;
  re_compile := Fragment.compile;
  regex_search := Fragment.search;
  float_of_str := Fragment.parse_float;
  read_from_web_CSV := sample_loader;
  compensated_sum := true
|}.

(** The fragment with a [float] that also reads "nan", as Python's does. *)
Definition nan_reading_lib : PyLib := {|
  regex := Fragment.rx * nat;
  re_compile := Fragment.compile;
  regex_search := Fragment.search;
  float_of_str :=
    fun x => if String.eqb x "nan" then Some PrimFloat.nan else Fragment.parse_float x;
  read_from_web_CSV := sample_loader;
  compensated_sum := false
|}.

(** A loaded table of two rows, before the extraction. *)
Definition pair_df : DataFrame :=
  mkDataFrame 2
    [("Weather_station_ID", [CStr "S1"; CStr "S2"]);
     ("Message", [CStr "rain 1 mm"; CStr "temp 2 C"])].

Definition loaded_pair : WeatherDataProcessor :=
  set_weather_df (Some pair_df) sample_processor.

(** A table of two rows without a station column. *)
Definition no_station_df : DataFrame :=
  mkDataFrame 2 [("Message", [CStr "rain 1 mm"; CStr "temp 2 C"])].

Definition no_station_processor : WeatherDataProcessor :=
  set_weather_df (Some no_station_df) sample_processor.

(** A table with two groups: the group of S1 and Rainfall has a row with a
    missing value among its rows, and S1 has a row without a Measurement. *)
Definition mixed_df : DataFrame :=
  mkDataFrame 5
    [("Weather_station_ID", [CStr "S1"; CStr "S2"; CStr "S1"; CStr "S1"; CStr "S1"]);
     ("Measurement",
      [CStr "Rainfall"; CStr "Temperature"; CStr "Rainfall"; CNone; CStr "Rainfall"]);
     ("Value", [CFloat 10; CFloat 5; CNone; CFloat 99; CFloat 20])].

Definition mixed_processor : WeatherDataProcessor :=
  set_weather_df (Some mixed_df) sample_processor.

(** * Properties *)

Ltac run_m :=
  unfold bind, lift, log, ret, get_df, put_df in *; simpl in *.

Section ExtractFacts.

Context {lib : PyLib}.

(** The loop touches the logger and nothing else. *)
Lemma extract_loop_frame items message self :
  let self' := snd (extract_loop items message self) in
  weather_station_data self' = weather_station_data self
  /\ patterns self' = patterns self
  /\ weather_df self' = weather_df self.
Proof.
  revert self. induction items as [| [key pattern] rest IH]; intros self; simpl.
  - run_m. auto.
  - run_m. destruct (re_search pattern message) as [[groups |] | e]; simpl.
    + destruct (captured_value groups); simpl; auto.
    + apply IH.
    + auto.
Qed.

(** The outcome of the loop does not depend on the object it runs on. *)
Lemma extract_loop_outcome items message self1 self2 :
  fst (extract_loop items message self1) = fst (extract_loop items message self2).
Proof.
  revert self1 self2. induction items as [| [key pattern] rest IH]; intros; simpl.
  - reflexivity.
  - run_m. destruct (re_search pattern message) as [[groups |] | e]; simpl.
    + destruct (captured_value groups); reflexivity.
    + apply IH.
    + reflexivity.
Qed.

Lemma extract_loop_no_match items message self :
  Forall (no_match message) items ->
  fst (extract_loop items message self) = Ok (None, None).
Proof.
  intros H. revert self. induction H as [| [key pattern] rest Hx _ IH]; intros self; simpl.
  - reflexivity.
  - run_m. unfold no_match in Hx. simpl in Hx. rewrite Hx. apply IH.
Qed.

Lemma extract_loop_first_match pre key pattern post message groups self :
  Forall (no_match message) pre ->
  re_search pattern message = Ok (Some groups) ->
  fst (extract_loop (pre ++ (key, pattern) :: post) message self) =
  match captured_value groups with
  | Ok v => Ok (Some key, Some v)
  | Raise e => Raise e
  end.
Proof.
  intros Hpre Hm. revert self.
  induction Hpre as [| [k p] rest Hx _ IH]; intros self; simpl.
  - run_m. rewrite Hm. destruct (captured_value groups); reflexivity.
  - run_m. unfold no_match in Hx. simpl in Hx. rewrite Hx. apply IH.
Qed.

Lemma extract_loop_all_or_nothing items message self k v :
  fst (extract_loop items message self) = Ok (k, v) ->
  (k = None /\ v = None) \/ (exists key value, k = Some key /\ v = Some value).
Proof.
  revert self. induction items as [| [key pattern] rest IH]; intros self; simpl.
  - run_m. intros H. inversion H. auto.
  - run_m. destruct (re_search pattern message) as [[groups |] | e]; simpl.
    + destruct (captured_value groups) as [x | e]; simpl; intros H; inversion H.
      right. eauto.
    + apply IH.
    + discriminate.
Qed.

(** C4: when [pattern], under [key], is the first pattern of the dictionary
    that matches the message, [extract_measurement] returns the kind [key]
    with the value captured by that pattern, whatever the later patterns
    [post] would match; the only other outcome is the exception raised by
    reading the captured number, and then no later pattern is tried. *)
Theorem extract_measurement_first_match_wins
        self message pre key pattern post groups :
  patterns self = pre ++ (key, pattern) :: post ->
  Forall (no_match message) pre ->
  re_search pattern message = Ok (Some groups) ->
  (forall v, captured_value groups = Ok v ->
             fst (extract_measurement message self) = Ok (Some key, Some v))
  /\ (forall e, captured_value groups = Raise e ->
                fst (extract_measurement message self) = Raise e).
Proof.
  intros Hp Hpre Hm. unfold extract_measurement. rewrite Hp.
  rewrite extract_loop_first_match with (groups := groups) by assumption.
  split; intros x Hx; rewrite Hx; reflexivity.
Qed.

(** C6: a message that no configured pattern matches gives (None, None). *)
Theorem extract_measurement_no_match self message :
  Forall (no_match message) (patterns self) ->
  fst (extract_measurement message self) = Ok (None, None).
Proof.
  intros H. unfold extract_measurement. apply extract_loop_no_match. exact H.
Qed.

(** C9: a result that [extract_measurement] returns has both components
    None or both components present. *)
Theorem extract_measurement_all_or_nothing self message k v :
  fst (extract_measurement message self) = Ok (k, v) ->
  (k = None /\ v = None) \/ (exists key value, k = Some key /\ v = Some value).
Proof.
  unfold extract_measurement. apply extract_loop_all_or_nothing.
Qed.

(** C10: the outcome of [extract_measurement] is a function of the message
    and of the pattern dictionary: two objects with the same patterns give
    the same result (or raise the same exception), whatever their table,
    locator and logger are. *)
Theorem extract_measurement_deterministic self1 self2 message :
  patterns self1 = patterns self2 ->
  fst (extract_measurement message self1) = fst (extract_measurement message self2).
Proof.
  intros H. unfold extract_measurement. rewrite H. apply extract_loop_outcome.
Qed.

End ExtractFacts.

(** ** Columns of a table *)

Section AssocFacts.

Variable V : Type.
Implicit Types (cols : list (string * V)) (name : string).

Lemma assoc_get_set_same name (v : V) cols :
  assoc_get name (assoc_set name v cols) = Some v.
Proof.
  induction cols as [| [n w] rest IH]; simpl.
  - rewrite String.eqb_refl. reflexivity.
  - destruct (String.eqb n name) eqn:E; simpl; rewrite E; auto.
Qed.

Lemma assoc_get_set_other name other (v : V) cols :
  other <> name ->
  assoc_get other (assoc_set name v cols) = assoc_get other cols.
Proof.
  intros Hne. induction cols as [| [n w] rest IH]; simpl.
  - destruct (String.eqb name other) eqn:E; auto.
    apply String.eqb_eq in E. congruence.
  - destruct (String.eqb n name) eqn:E; simpl.
    + apply String.eqb_eq in E. subst n.
      destruct (String.eqb name other) eqn:E'; auto.
      apply String.eqb_eq in E'. congruence.
    + rewrite IH. reflexivity.
Qed.

Lemma assoc_set_same name (v : V) cols :
  assoc_get name cols = Some v -> assoc_set name v cols = cols.
Proof.
  induction cols as [| [n w] rest IH]; simpl; intros H.
  - discriminate.
  - destruct (String.eqb n name) eqn:E.
    + congruence.
    + rewrite IH; auto.
Qed.

Lemma assoc_set_labels name (v : V) cols :
  map fst (assoc_set name v cols) = add_label name (map fst cols).
Proof.
  unfold add_label. induction cols as [| [n w] rest IH]; simpl.
  - reflexivity.
  - destruct (String.eqb n name) eqn:E; simpl.
    + reflexivity.
    + rewrite IH. destruct (existsb _ (map fst rest)); reflexivity.
Qed.

End AssocFacts.

(** ** process_messages *)

Section ProcessFacts.

Context {lib : PyLib}.

Lemma extract_measurement_frame message self :
  let self' := snd (extract_measurement message self) in
  weather_station_data self' = weather_station_data self
  /\ patterns self' = patterns self
  /\ weather_df self' = weather_df self.
Proof. unfold extract_measurement. apply extract_loop_frame. Qed.

Lemma extract_measurement_outcome message self1 self2 :
  patterns self1 = patterns self2 ->
  fst (extract_measurement message self1) = fst (extract_measurement message self2).
Proof.
  intros H. unfold extract_measurement. rewrite H. apply extract_loop_outcome.
Qed.

Lemma apply_series_cons {A} (f : cell -> M A) c rest self :
  apply_series f (c :: rest) self =
  match f c self with
  | (Ok a, s1) =>
      match apply_series f rest s1 with
      | (Ok r, s2) => (Ok (a :: r), s2)
      | (Raise e, s2) => (Raise e, s2)
      end
  | (Raise e, s1) => (Raise e, s1)
  end.
Proof.
  simpl. unfold bind, ret.
  destruct (f c self) as [[a | e] s1]; [| reflexivity].
  destruct (apply_series f rest s1) as [[r | e] s2]; reflexivity.
Qed.

Lemma apply_series_frame col self :
  let self' := snd (apply_series extract_measurement col self) in
  weather_station_data self' = weather_station_data self
  /\ patterns self' = patterns self
  /\ weather_df self' = weather_df self.
Proof.
  revert self. induction col as [| c rest IH]; intros self.
  - simpl. auto.
  - cbv zeta. rewrite apply_series_cons.
    pose proof (extract_measurement_frame c self) as Hf. simpl in Hf.
    destruct (extract_measurement c self) as [[a | e] s1]; simpl in Hf.
    + specialize (IH s1). simpl in IH.
      destruct (apply_series extract_measurement rest s1) as [[r | e] s2]; simpl in *;
        intuition congruence.
    + exact Hf.
Qed.

Lemma apply_series_outcome col self1 self2 :
  patterns self1 = patterns self2 ->
  fst (apply_series extract_measurement col self1)
  = fst (apply_series extract_measurement col self2).
Proof.
  revert self1 self2. induction col as [| c rest IH]; intros self1 self2 Hp.
  - reflexivity.
  - rewrite !apply_series_cons.
    pose proof (extract_measurement_outcome c self1 self2 Hp) as Hd.
    pose proof (extract_measurement_frame c self1) as H1.
    pose proof (extract_measurement_frame c self2) as H2. simpl in H1, H2.
    destruct (extract_measurement c self1) as [[a1 | e1] s1];
      destruct (extract_measurement c self2) as [[a2 | e2] s2]; simpl in *;
      try discriminate; try (inversion Hd; reflexivity).
    inversion Hd; subst a2.
    assert (Hp' : patterns s1 = patterns s2)
      by (destruct H1 as (_ & -> & _); destruct H2 as (_ & -> & _); exact Hp).
    specialize (IH s1 s2 Hp').
    destruct (apply_series extract_measurement rest s1) as [[r1 | x1] t1];
      destruct (apply_series extract_measurement rest s2) as [[r2 | x2] t2]; simpl in *;
      congruence.
Qed.

Lemma apply_series_length col self res :
  fst (apply_series extract_measurement col self) = Ok res ->
  length res = length col.
Proof.
  revert self res. induction col as [| c rest IH]; intros self res.
  - simpl. intros H. inversion H. reflexivity.
  - rewrite apply_series_cons.
    destruct (extract_measurement c self) as [[a | e] s1]; simpl.
    + specialize (IH s1).
      destruct (apply_series extract_measurement rest s1) as [[r | x] t]; simpl in *.
      * intros H. inversion H. simpl. f_equal. apply IH. reflexivity.
      * discriminate.
    + discriminate.
Qed.

Lemma setitem_fits df name values :
  length values = nrows df ->
  setitem df name values
  = Ok (mkDataFrame (nrows df) (assoc_set name values (columns df))).
Proof. intros H. unfold setitem. rewrite H, Nat.eqb_refl. reflexivity. Qed.

Lemma setitem_misfit df name values :
  length values <> nrows df -> setitem df name values = Raise ValueError.
Proof.
  intros H. unfold setitem. destruct (Nat.eqb_spec (length values) (nrows df)); congruence.
Qed.

Lemma assign_column_run name values self df :
  weather_df self = Some df ->
  assign_column name values self =
  match setitem df name values with
  | Ok df' => (Ok tt, set_weather_df (Some df') self)
  | Raise e => (Raise e, self)
  end.
Proof.
  intros H. unfold assign_column, bind, get_df, lift, put_df. rewrite H.
  destruct (setitem df name values); reflexivity.
Qed.

(** The method, case by case. *)
Lemma process_messages_cases self :
  process_messages self =
  match weather_df self with
  | None =>
      (Ok None,
       set_logger (log_record WARNING
                     "weather_df is not initialized, skipping message processing."
                     (logger self)) self)
  | Some df =>
      match get_column "Message" df with
      | None => (Raise (KeyError "Message"), self)
      | Some col =>
          match apply_series extract_measurement col self with
          | (Raise e, s1) => (Raise e, s1)
          | (Ok [], s1) => (Raise ValueError, s1)
          | (Ok res, s1) =>
              if Nat.eqb (length col) (nrows df)
              then (Ok (Some (augmented df res)),
                    set_logger (log_record INFO
                                  "Messages processed and measurements extracted."
                                  (logger s1))
                               (set_weather_df (Some (augmented df res)) s1))
              else (Raise ValueError, s1)
          end
      end
  end.
Proof.
  unfold process_messages, getitem.
  unfold bind at 1 2. unfold get_df at 1. simpl.
  destruct (weather_df self) as [df |] eqn:Hdf;
    [| unfold log, get_df; simpl; rewrite Hdf; reflexivity].
  unfold bind at 1 2. unfold lift at 1.
  destruct (get_column "Message" df) as [col |] eqn:Hcol; [| reflexivity].
  unfold bind at 1.
  pose proof (apply_series_frame col self) as Hf.
  pose proof (apply_series_length col self) as Hl.
  destruct (apply_series extract_measurement col self) as [[res | e] s1]; [| reflexivity].
  simpl in Hf. destruct Hf as (_ & _ & Hdf1). rewrite Hdf in Hdf1.
  specialize (Hl res eq_refl).
  destruct res as [| t res']; [reflexivity |].
  set (res := t :: res') in *.
  unfold bind at 1. unfold lift at 1. cbn [zip_star unpack2 res fst snd].
  fold res.
  unfold bind at 1. rewrite (assign_column_run _ _ s1 Hdf1).
  destruct (Nat.eqb_spec (length col) (nrows df)) as [El | El].
  - rewrite setitem_fits by (rewrite length_map; congruence).
    rewrite assign_column_run
      with (df := mkDataFrame (nrows df)
                    (assoc_set "Measurement"
                       (map (fun t => measurement_cell (fst t)) res) (columns df)))
      by reflexivity.
    rewrite setitem_fits by (rewrite length_map; cbn [nrows]; congruence).
    reflexivity.
  - rewrite setitem_misfit by (rewrite length_map; congruence).
    reflexivity.
Qed.

Lemma augmented_nrows df res : nrows (augmented df res) = nrows df.
Proof. reflexivity. Qed.

Lemma augmented_other_column df res name :
  name <> "Measurement" -> name <> "Value" ->
  get_column name (augmented df res) = get_column name df.
Proof.
  intros Hm Hv. unfold get_column, augmented. simpl.
  rewrite !assoc_get_set_other by assumption. reflexivity.
Qed.

Lemma augmented_measurement df res :
  get_column "Measurement" (augmented df res)
  = Some (map (fun t => measurement_cell (fst t)) res).
Proof.
  unfold get_column, augmented. simpl.
  rewrite assoc_get_set_other by discriminate. apply assoc_get_set_same.
Qed.

Lemma augmented_value df res :
  get_column "Value" (augmented df res) = Some (map (fun t => value_cell (snd t)) res).
Proof. unfold get_column, augmented. simpl. apply assoc_get_set_same. Qed.

Lemma augmented_labels df res :
  column_names (augmented df res)
  = add_label "Value" (add_label "Measurement" (column_names df)).
Proof. unfold column_names, augmented. simpl. rewrite !assoc_set_labels. reflexivity. Qed.

(** Extracting again into an augmented table changes nothing. *)
Lemma augmented_again df res : augmented (augmented df res) res = augmented df res.
Proof.
  pose proof (augmented_measurement df res) as Hm.
  pose proof (augmented_value df res) as Hv.
  unfold get_column in Hm, Hv.
  set (a := augmented df res) in *.
  unfold augmented at 1.
  rewrite (assoc_set_same _ _ Hm). rewrite (assoc_set_same _ _ Hv). reflexivity.
Qed.

(** The patterns survive the method. *)
Lemma process_messages_patterns self :
  patterns (snd (process_messages self)) = patterns self.
Proof.
  rewrite process_messages_cases.
  destruct (weather_df self) as [df |]; [| reflexivity].
  destruct (get_column "Message" df) as [col |]; [| reflexivity].
  pose proof (apply_series_frame col self) as Hf. simpl in Hf.
  destruct (apply_series extract_measurement col self) as [[res | e] s1];
    simpl in Hf; destruct Hf as (_ & Hp & _); [| exact Hp].
  destruct res; [exact Hp |].
  destruct (Nat.eqb (length col) (nrows df)); exact Hp.
Qed.

(** What a run that returns a table went through. *)
Lemma process_messages_returns_table self df' :
  fst (process_messages self) = Ok (Some df') ->
  exists df col res,
    weather_df self = Some df
    /\ get_column "Message" df = Some col
    /\ fst (apply_series extract_measurement col self) = Ok res
    /\ res <> []
    /\ length col = nrows df
    /\ df' = augmented df res
    /\ weather_df (snd (process_messages self)) = Some df'.
Proof.
  rewrite process_messages_cases.
  destruct (weather_df self) as [df |] eqn:Hdf; [| simpl; discriminate].
  destruct (get_column "Message" df) as [col |] eqn:Hcol; [| simpl; discriminate].
  destruct (apply_series extract_measurement col self) as [[res | e] s1] eqn:Happ;
    [| simpl; discriminate].
  destruct res as [| t res']; [simpl; discriminate |].
  destruct (Nat.eqb_spec (length col) (nrows df)) as [El | El]; [| simpl; discriminate].
  simpl. intros H. inversion H. subst df'.
  exists df, col, (t :: res'). repeat split; auto.
  - rewrite Happ. reflexivity.
  - discriminate.
Qed.

(** And back: these conditions make the run return the augmented table. *)
Lemma process_messages_run self df col res :
  weather_df self = Some df ->
  get_column "Message" df = Some col ->
  fst (apply_series extract_measurement col self) = Ok res ->
  res <> [] ->
  length col = nrows df ->
  fst (process_messages self) = Ok (Some (augmented df res))
  /\ weather_df (snd (process_messages self)) = Some (augmented df res).
Proof.
  intros Hdf Hcol Happ Hne Hlen.
  rewrite process_messages_cases, Hdf, Hcol.
  destruct (apply_series extract_measurement col self) as [[r | e] s1];
    simpl in Happ; [| simpl; discriminate].
  inversion Happ; subst r.
  destruct res as [| t res']; [congruence |].
  rewrite Hlen, Nat.eqb_refl. simpl. auto.
Qed.

(** A run that does not return a table leaves the table as it was. *)
Lemma process_messages_no_table self :
  (forall df', fst (process_messages self) <> Ok (Some df')) ->
  weather_df (snd (process_messages self)) = weather_df self.
Proof.
  rewrite process_messages_cases.
  destruct (weather_df self) as [df |] eqn:Hdf; [| intros _; simpl; exact Hdf].
  destruct (get_column "Message" df) as [col |]; [| intros _; simpl; exact Hdf].
  pose proof (apply_series_frame col self) as Hf. simpl in Hf.
  destruct (apply_series extract_measurement col self) as [[res | e] s1];
    simpl in Hf; destruct Hf as (_ & _ & Hd); rewrite Hdf in Hd; [| intros _; exact Hd].
  destruct res; [intros _; exact Hd |].
  destruct (Nat.eqb (length col) (nrows df)); [| intros _; exact Hd].
  simpl. intros H. exfalso. eapply H. reflexivity.
Qed.

(** The outcome and the table left behind depend on the object only through
    its patterns and its table. *)
Lemma process_messages_depends self1 self2 :
  patterns self1 = patterns self2 ->
  weather_df self1 = weather_df self2 ->
  fst (process_messages self1) = fst (process_messages self2)
  /\ weather_df (snd (process_messages self1)) = weather_df (snd (process_messages self2)).
Proof.
  intros Hp Hd. rewrite !process_messages_cases. rewrite <- Hd.
  destruct (weather_df self1) as [df |] eqn:Hdf.
  - destruct (get_column "Message" df) as [col |].
    + pose proof (apply_series_outcome col self1 self2 Hp) as Ho.
      pose proof (apply_series_frame col self1) as F1.
      pose proof (apply_series_frame col self2) as F2. simpl in F1, F2.
      destruct (apply_series extract_measurement col self1) as [[r1 | e1] s1];
        destruct (apply_series extract_measurement col self2) as [[r2 | e2] s2];
        simpl in Ho, F1, F2; try discriminate;
        destruct F1 as (_ & _ & F1); destruct F2 as (_ & _ & F2).
      * inversion Ho; subst r2. destruct r1.
        -- simpl. split; congruence.
        -- destruct (Nat.eqb (length col) (nrows df)); simpl; split; congruence.
      * simpl. split; congruence.
    + simpl. split; congruence.
  - simpl. split; congruence.
Qed.

(** C2: on a loaded table with no row the unpacking of the two columns fails:
    [process_messages] raises ValueError, and the table stays as it was. *)
Theorem process_messages_empty_table_raises self df :
  weather_df self = Some df ->
  get_column "Message" df = Some [] ->
  fst (process_messages self) = Raise ValueError
  /\ weather_df (snd (process_messages self)) = Some df.
Proof.
  intros Hdf Hcol. rewrite process_messages_cases, Hdf, Hcol. simpl.
  unfold ret. simpl. auto.
Qed.

(** C7: a second run of [process_messages] right after the first has the
    outcome of the first and leaves the table of the first, so the
    Measurement and Value columns are the same both times. *)
Theorem process_messages_idempotent self :
  let run1 := process_messages self in
  let run2 := process_messages (snd run1) in
  fst run2 = fst run1
  /\ weather_df (snd run2) = weather_df (snd run1)
  /\ option_map (get_column "Measurement") (weather_df (snd run2))
     = option_map (get_column "Measurement") (weather_df (snd run1))
  /\ option_map (get_column "Value") (weather_df (snd run2))
     = option_map (get_column "Value") (weather_df (snd run1)).
Proof.
  cbv zeta.
  assert (H : fst (process_messages (snd (process_messages self)))
              = fst (process_messages self)
              /\ weather_df (snd (process_messages (snd (process_messages self))))
                 = weather_df (snd (process_messages self))).
  { pose proof (process_messages_patterns self) as Hp.
    destruct (fst (process_messages self)) as [[df' |] | e] eqn:Hrun.
    - destruct (process_messages_returns_table self Hrun)
        as (df & col & res & Hdf & Hcol & Happ & Hne & Hlen & -> & Hdf').
      assert (Hcol' : get_column "Message" (augmented df res) = Some col)
        by (rewrite augmented_other_column by discriminate; exact Hcol).
      assert (Happ' : fst (apply_series extract_measurement col (snd (process_messages self)))
                      = Ok res)
        by (rewrite <- Happ; apply apply_series_outcome; exact Hp).
      destruct (process_messages_run _ Hdf' Hcol' Happ' Hne Hlen) as (R1 & R2).
      rewrite augmented_again in R1, R2. rewrite Hdf'. auto.
    - rewrite <- Hrun. apply process_messages_depends; [exact Hp |].
      apply process_messages_no_table. intros df' Hx. congruence.
    - rewrite <- Hrun. apply process_messages_depends; [exact Hp |].
      apply process_messages_no_table. intros df' Hx. congruence. }
  destruct H as (H1 & H2). rewrite H2. auto.
Qed.

(** C8: after [process_messages] on a loaded table, the table has the rows it
    had, every column other than Measurement and Value is what it was, and
    the labels are the old ones in their order with Measurement and Value
    appended where they were not there; when the method raises, the table is
    untouched. *)
Theorem process_messages_keeps_other_columns self df :
  weather_df self = Some df ->
  exists df',
    weather_df (snd (process_messages self)) = Some df'
    /\ nrows df' = nrows df
    /\ (forall name, name <> "Measurement" -> name <> "Value" ->
                     get_column name df' = get_column name df)
    /\ match fst (process_messages self) with
       | Ok out =>
           out = Some df'
           /\ column_names df'
              = add_label "Value" (add_label "Measurement" (column_names df))
       | Raise _ => df' = df
       end.
Proof.
  intros Hdf.
  destruct (fst (process_messages self)) as [[df' |] | e] eqn:Hrun.
  - destruct (process_messages_returns_table self Hrun)
      as (df0 & col & res & Hdf0 & Hcol & Happ & Hne & Hlen & -> & Hdf').
    assert (df0 = df) by congruence. subst df0.
    exists (augmented df res). repeat split; auto.
    + intros name Hm Hv. apply augmented_other_column; assumption.
    + apply augmented_labels.
  - exfalso. revert Hrun. rewrite process_messages_cases, Hdf.
    destruct (get_column "Message" df) as [col |]; [| simpl; discriminate].
    destruct (apply_series extract_measurement col self) as [[res | e] s1]; [| simpl; discriminate].
    destruct res; [simpl; discriminate |].
    destruct (Nat.eqb (length col) (nrows df)); simpl; discriminate.
  - exists df. repeat split; auto.
    rewrite <- Hdf. apply process_messages_no_table. intros df' Hx. congruence.
Qed.

(** ** process *)

Lemma weather_station_mapping_cases self :
  weather_station_mapping self =
  match read_from_web_CSV (weather_station_data self) with
  | Ok df =>
      (Ok tt,
       set_logger (log_record INFO
                     "Successfully loaded weather station data from the web."
                     (logger self))
                  (set_weather_df (Some df) self))
  | Raise e => (Raise e, self)
  end.
Proof.
  unfold weather_station_mapping, bind, lift, put_df, log.
  destruct (read_from_web_CSV (weather_station_data self)); reflexivity.
Qed.

Lemma process_cases self :
  process self =
  match weather_station_mapping self with
  | (Ok _, s1) =>
      match process_messages s1 with
      | (Ok _, s2) =>
          (Ok None, set_logger (log_record INFO "Data processing completed." (logger s2)) s2)
      | (Raise e, s2) => (Raise e, s2)
      end
  | (Raise e, s1) => (Raise e, s1)
  end.
Proof.
  unfold process. unfold bind at 1.
  destruct (weather_station_mapping self) as [[u | e] s1]; [| reflexivity].
  unfold bind at 1.
  destruct (process_messages s1) as [[out | e] s2]; reflexivity.
Qed.

(** C1, as the code has it: [process] loads, then extracts, and returns None;
    when the load gives [df] and the extraction on the loaded table returns
    [df'], that table is [df] with the results of [extract_measurement] on the
    Message column written under Measurement and Value, and it is what
    [weather_df] holds after the call. *)
Theorem process_returns_none_and_leaves_table self df df' :
  read_from_web_CSV (weather_station_data self) = Ok df ->
  fst (process_messages (snd (weather_station_mapping self))) = Ok (Some df') ->
  fst (process self) = Ok None
  /\ weather_df (snd (process self)) = Some df'
  /\ exists col res,
       get_column "Message" df = Some col
       /\ fst (apply_series extract_measurement col self) = Ok res
       /\ df' = augmented df res.
Proof.
  intros Hload Hrun. rewrite process_cases.
  destruct (process_messages_returns_table _ Hrun)
    as (df0 & col & res & Hdf0 & Hcol & Happ & Hne & Hlen & Heq & Hdf').
  revert Hrun Hdf0 Happ Hdf'. rewrite weather_station_mapping_cases, Hload. simpl.
  intros Hrun Hdf0 Happ Hdf'.
  inversion Hdf0; subst df0.
  destruct (process_messages _) as [[out | e] s2]; simpl in *; [| discriminate].
  repeat split; auto.
  exists col, res. repeat split; auto.
  rewrite <- Happ. apply apply_series_outcome. reflexivity.
Qed.

(** ** calculate_means *)

Lemma calculate_means_cases self :
  calculate_means self =
  match weather_df self with
  | None =>
      (Ok None,
       set_logger (log_record WARNING
                     "weather_df is not initialized, cannot calculate means."
                     (logger self)) self)
  | Some df =>
      match groupby_mean df with
      | Ok means =>
          match unstack_series means with
          | Ok mt =>
              (Ok (Some mt),
               set_logger (log_record INFO "Mean values calculated." (logger self)) self)
          | Raise e =>
              (Raise e,
               set_logger (log_record INFO "Mean values calculated." (logger self)) self)
          end
      | Raise e => (Raise e, self)
      end
  end.
Proof.
  unfold calculate_means, bind, get_df, lift, log, ret.
  destruct (weather_df self) as [df |]; [| reflexivity].
  destruct (groupby_mean df) as [means | e]; [| reflexivity].
  destruct (unstack_series means); reflexivity.
Qed.

(** With both grouping columns in the table the list is read as column
    labels, whatever the number of rows. *)
Lemma groupby_mean_by_columns df ss ms vs :
  get_column "Weather_station_ID" df = Some ss ->
  get_column "Measurement" df = Some ms ->
  get_column "Value" df = Some vs ->
  groupby_mean df =
  if numeric_column vs then
    match group_rows (combine ss (combine ms vs)) [] with
    | Ok gs => Ok (ByColumns gs)
    | Raise e => Raise e
    end
  else Raise TypeError.
Proof.
  intros Hs Hm Hv. unfold groupby_mean, by_is_row_labels, has_column, getitem.
  simpl. rewrite Hs, Hm, Hv. simpl. rewrite andb_false_r. reflexivity.
Qed.

(** Without a Measurement column the list is read as row labels exactly on a
    table of two rows. *)
Lemma by_is_row_labels_no_measurement df :
  get_column "Measurement" df = None ->
  by_is_row_labels df = Nat.eqb 2 (nrows df).
Proof.
  intros H. unfold by_is_row_labels, has_column. simpl. rewrite H.
  rewrite andb_false_r. simpl. apply andb_true_r.
Qed.

(** C3, as the code has it: on an object whose table, if there is one, has no
    Measurement column, [calculate_means] never returns a table and leaves the
    table of the object as it was.  Without a table it returns None (and logs
    a warning when warnings are enabled).  With a table it raises: KeyError
    for the first grouping column that is missing, unless the table has two
    rows; on two rows pandas reads the two labels as row labels, so that the
    failure is the KeyError of a missing Value column or, with a Value
    column, the TypeError of a mean over str cells or else the ValueError of
    [unstack] on a series with a flat index, which comes after the record that
    the means were calculated. *)
Theorem calculate_means_before_extraction self :
  (forall df, weather_df self = Some df -> get_column "Measurement" df = None) ->
  match weather_df self with
  | None =>
      calculate_means self
      = (Ok None,
         set_logger (log_record WARNING
                       "weather_df is not initialized, cannot calculate means."
                       (logger self)) self)
  | Some df =>
      calculate_means self =
      if Nat.eqb 2 (nrows df) then
        match get_column "Value" df with
        | None => (Raise (KeyError "Column not found: Value"), self)
        | Some vs =>
            if numeric_column vs
            then (Raise ValueError,
                  set_logger (log_record INFO "Mean values calculated." (logger self))
                             self)
            else (Raise TypeError, self)
        end
      else
        (Raise (KeyError (match get_column "Weather_station_ID" df with
                          | Some _ => "Measurement"
                          | None => "Weather_station_ID"
                          end)), self)
  end.
Proof.
  intros H. rewrite calculate_means_cases.
  destruct (weather_df self) as [df |]; [| reflexivity].
  specialize (H df eq_refl). unfold groupby_mean.
  rewrite (by_is_row_labels_no_measurement df H).
  destruct (Nat.eqb 2 (nrows df)).
  - destruct (get_column "Value" df) as [vs |]; [| reflexivity].
    destruct (numeric_column vs); reflexivity.
  - unfold getitem. rewrite H.
    destruct (get_column "Weather_station_ID" df); reflexivity.
Qed.

End ProcessFacts.

(** ** The grouped mean *)

Section MeanFacts.

Context {lib : PyLib}.

Lemma spec_float_eqb_eq a b : spec_float_eqb a b = true <-> a = b.
Proof.
  destruct a, b; simpl; split; intros H; try discriminate; try reflexivity.
  - apply Bool.eqb_prop in H. congruence.
  - inversion H. apply Bool.eqb_reflx.
  - apply Bool.eqb_prop in H. congruence.
  - inversion H. apply Bool.eqb_reflx.
  - apply andb_true_iff in H. destruct H as (H & He).
    apply andb_true_iff in H. destruct H as (Hs & Hm).
    apply Bool.eqb_prop in Hs. apply Pos.eqb_eq in Hm. apply Z.eqb_eq in He. congruence.
  - inversion H. rewrite Bool.eqb_reflx, Pos.eqb_refl, Z.eqb_refl. reflexivity.
Qed.

Lemma key_eqb_eq a b : key_eqb a b = true <-> a = b.
Proof.
  destruct a, b; simpl; split; intros H; try discriminate.
  - apply String.eqb_eq in H. congruence.
  - inversion H. apply String.eqb_refl.
  - apply Z.eqb_eq in H. congruence.
  - inversion H. apply Z.eqb_refl.
  - apply spec_float_eqb_eq in H. congruence.
  - inversion H. apply spec_float_eqb_eq. reflexivity.
Qed.

Lemma group_eqb_eq a b : group_eqb a b = true <-> a = b.
Proof.
  unfold group_eqb. destruct a as [a1 a2], b as [b1 b2]. simpl.
  rewrite andb_true_iff, !key_eqb_eq. split.
  - intros (-> & ->). reflexivity.
  - intros H. inversion H. auto.
Qed.

Lemma group_eqb_refl a : group_eqb a a = true.
Proof. apply group_eqb_eq. reflexivity. Qed.

(** What a group holds after one more observation. *)
Lemma find_group_add_obs g h x gs :
  find_group g (add_obs h x gs) =
  if group_eqb h g
  then Some (observe x (match find_group g gs with Some a => a | None => group_init end))
  else find_group g gs.
Proof.
  induction gs as [| [h' a] rest IH]; simpl.
  - destruct (group_eqb h g); reflexivity.
  - destruct (group_eqb h' h) eqn:E; simpl.
    + apply group_eqb_eq in E. subst h'.
      destruct (group_eqb h g); reflexivity.
    + destruct (group_eqb h' g) eqn:E'.
      * destruct (group_eqb h g) eqn:E''; [| reflexivity].
        apply group_eqb_eq in E', E''. subst. rewrite group_eqb_refl in E. discriminate.
      * exact IH.
Qed.

Lemma group_rows_state g rows gs gs' :
  group_rows rows gs = Ok gs' ->
  find_group g gs' = state_after g rows (find_group g gs).
Proof.
  revert gs. induction rows as [| r rest IH]; intros gs; simpl.
  - intros H. inversion H. reflexivity.
  - unfold group_step, in_group, present.
    destruct (key_of (fst r)) as [ks |]; [| apply IH].
    destruct (key_of (fst (snd r))) as [km |]; [| apply IH].
    destruct (as_number (snd (snd r))) as [x | e]; [| discriminate].
    intros H. rewrite (IH _ H). rewrite find_group_add_obs.
    destruct (group_eqb (ks, km) g); reflexivity.
Qed.

Lemma state_after_some g rows a :
  state_after g rows (Some a) = Some (fold_left add_value (group_values g rows) a).
Proof.
  revert a. induction rows as [| r rest IH]; intros a; simpl.
  - reflexivity.
  - destruct (in_group g r); [| apply IH].
    destruct (present (snd (snd r))) as [v |]; simpl; rewrite IH; reflexivity.
Qed.

Lemma state_after_none g rows :
  group_values g rows <> [] ->
  state_after g rows None = Some (fold_left add_value (group_values g rows) group_init).
Proof.
  induction rows as [| r rest IH]; simpl.
  - congruence.
  - destruct (in_group g r); [| exact IH].
    intros _. destruct (present (snd (snd r))) as [v |]; simpl; rewrite state_after_some;
      reflexivity.
Qed.

Lemma nobs_add_value a v : nobs (add_value a v) = S (nobs a).
Proof. unfold add_value. destruct compensated_sum; reflexivity. Qed.

Lemma nobs_fold l a : nobs (fold_left add_value l a) = (nobs a + length l)%nat.
Proof.
  revert a. induction l as [| v rest IH]; intros a; simpl.
  - rewrite Nat.add_0_r. reflexivity.
  - rewrite IH, nobs_add_value. rewrite Nat.add_succ_r. reflexivity.
Qed.

(** Taking zero off a float leaves the float. *)
Lemma sub_zero_r v : (v - 0)%float = v.
Proof.
  apply Prim2SF_inj. rewrite sub_spec. unfold SF64sub.
  change (Prim2SF 0%float) with (S754_zero false).
  destruct (Prim2SF v) as [[|] | [|] | | sg m e]; reflexivity.
Qed.

Lemma plain_fold l a :
  sumx (fold_left add_plain l a) = fold_left PrimFloat.add l (sumx a).
Proof.
  revert a. induction l as [| v rest IH]; intros a; simpl.
  - reflexivity.
  - rewrite IH. reflexivity.
Qed.

(** On an exactly summable list the compensation stays zero, and the
    compensated sum is the plain one. *)
Lemma compensated_fold l a :
  compensation a = 0%float ->
  exact_from (sumx a) l ->
  sumx (fold_left add_compensated l a) = fold_left PrimFloat.add l (sumx a).
Proof.
  revert a. induction l as [| v rest IH]; intros a Hc Hex; simpl.
  - reflexivity.
  - destruct Hex as (H0 & Hrest).
    assert (Hs : sumx (add_compensated a v) = (sumx a + v)%float)
      by (unfold add_compensated; rewrite Hc, sub_zero_r; reflexivity).
    assert (Hc' : compensation (add_compensated a v) = 0%float).
    { unfold add_compensated. simpl. rewrite Hc, sub_zero_r, H0.
      destruct (PrimFloat.eqb 0 0); reflexivity. }
    rewrite IH; [rewrite Hs; reflexivity | exact Hc' | rewrite Hs; exact Hrest].
Qed.

Lemma add_value_fold l a :
  compensation a = 0%float ->
  exact_from (sumx a) l ->
  sumx (fold_left add_value l a) = fold_left PrimFloat.add l (sumx a).
Proof.
  intros Hc Hex. unfold add_value. destruct compensated_sum.
  - apply compensated_fold; assumption.
  - apply plain_fold.
Qed.

Lemma group_rows_succeeds rows gs :
  Forall (fun r => is_ok (as_number (snd (snd r))) = true) rows ->
  exists gs', group_rows rows gs = Ok gs'.
Proof.
  intros H. revert gs. induction H as [| r rest Hr _ IH]; intros gs; simpl.
  - eauto.
  - unfold group_step.
    destruct (key_of (fst r)); [| apply IH].
    destruct (key_of (fst (snd r))); [| apply IH].
    destruct (as_number (snd (snd r))); [apply IH | discriminate].
Qed.

Lemma insert_key_in x k l : In x (insert_key k l) <-> x = k \/ In x l.
Proof.
  induction l as [| y rest IH]; simpl.
  - intuition.
  - destruct (key_eqb k y) eqn:E.
    + apply key_eqb_eq in E. subst y. simpl. intuition.
    + destruct (key_ltb k y); simpl; [intuition |].
      rewrite IH. intuition.
Qed.

Lemma sorted_keys_in x l : In x (sorted_keys l) <-> In x l.
Proof.
  unfold sorted_keys. induction l as [| y rest IH]; simpl.
  - reflexivity.
  - rewrite insert_key_in, IH. intuition.
Qed.

Lemma at_label_map {A} (f : key -> A) labels k :
  In k labels -> at_label labels (map f labels) k = Some (f k).
Proof.
  induction labels as [| l rest IH]; simpl; intros H.
  - contradiction.
  - destruct (key_eqb l k) eqn:E.
    + apply key_eqb_eq in E. subst l. reflexivity.
    + destruct H as [H | H]; [| auto].
      subst l. rewrite (proj2 (key_eqb_eq k k) eq_refl) in E. discriminate.
Qed.

Lemma find_group_in g gs a :
  find_group g gs = Some a -> In g (map fst gs).
Proof.
  induction gs as [| [h b] rest IH]; simpl.
  - discriminate.
  - destruct (group_eqb h g) eqn:E.
    + apply group_eqb_eq in E. auto.
    + auto.
Qed.

(** Reading the unstacked table at the labels of a group gives its mean. *)
Lemma mt_loc_unstack gs s k a :
  find_group (s, k) gs = Some a ->
  mt_loc (unstack gs) s k = Some (mean_of a).
Proof.
  intros H. pose proof (find_group_in _ _ H) as Hin.
  unfold mt_loc, unstack. simpl.
  rewrite at_label_map.
  - rewrite at_label_map.
    + rewrite H. reflexivity.
    + apply sorted_keys_in.
      apply in_map_iff in Hin. destruct Hin as (x & Hx & Hin).
      apply in_map_iff. exists x. split; [| exact Hin].
      rewrite Hx. reflexivity.
  - apply sorted_keys_in.
    apply in_map_iff in Hin. destruct Hin as (x & Hx & Hin).
    apply in_map_iff. exists x. split; [| exact Hin].
    rewrite Hx. reflexivity.
Qed.

Lemma mean_of_group l :
  l <> [] ->
  exactly_summable l ->
  mean_of (fold_left add_value l group_init) = arithmetic_mean l.
Proof.
  intros Hne Hex. unfold mean_of, arithmetic_mean, fsum.
  rewrite nobs_fold, add_value_fold by (try reflexivity; exact Hex).
  destruct l as [| v rest]; [congruence | reflexivity].
Qed.

Lemma rows_values_ok (ss ms vs : list cell) :
  Forall (fun c => is_ok (as_number c) = true) vs ->
  Forall (fun r => is_ok (as_number (snd (snd r))) = true) (combine ss (combine ms vs)).
Proof.
  intros H. apply Forall_forall. intros [s [m v]] Hin. simpl.
  apply in_combine_r in Hin. apply in_combine_r in Hin.
  rewrite Forall_forall in H. apply H. exact Hin.
Qed.

Lemma numeric_column_ok vs :
  Forall (fun c => is_ok (as_number c) = true) vs -> numeric_column vs = true.
Proof.
  intros H. unfold numeric_column. apply forallb_forall. intros c Hin.
  rewrite Forall_forall in H. specialize (H c Hin).
  destruct c; [reflexivity | discriminate | reflexivity | reflexivity].
Qed.

Lemma numeric_column_values vs :
  numeric_column vs = true -> Forall (fun c => is_ok (as_number c) = true) vs.
Proof.
  unfold numeric_column. intros H. apply Forall_forall. intros c Hin.
  rewrite forallb_forall in H. specialize (H c Hin).
  destruct c; [reflexivity | discriminate | reflexivity | reflexivity].
Qed.

(** C5: on a table with the three columns and no str under Value,
    [calculate_means] groups the rows by the pair of their station and
    Measurement labels: rows whose station or Measurement is missing are in
    no group, and missing values are not counted.  At station [s] and
    measurement [k], whenever the group has a present value, the table of
    means holds the sum of the present values of the rows labelled [s] and
    [k], accumulated in row order the way the installed pandas adds, over
    their count.  When these values are exactly summable, as 10.0 and 20.0
    are, this is their arithmetic mean: the float sum over the count,
    whichever way pandas adds; elsewhere the last digits of the sum depend
    on the release of pandas. *)
Theorem calculate_means_group_mean self df ss ms vs s k :
  weather_df self = Some df ->
  get_column "Weather_station_ID" df = Some ss ->
  get_column "Measurement" df = Some ms ->
  get_column "Value" df = Some vs ->
  Forall (fun c => is_ok (as_number c) = true) vs ->
  group_values (s, k) (combine ss (combine ms vs)) <> [] ->
  exists mt,
    fst (calculate_means self) = Ok (Some mt)
    /\ mt_loc mt s k
       = Some (mean_of (fold_left add_value
                          (group_values (s, k) (combine ss (combine ms vs)))
                          group_init))
    /\ (exactly_summable (group_values (s, k) (combine ss (combine ms vs))) ->
        mt_loc mt s k
        = Some (arithmetic_mean (group_values (s, k) (combine ss (combine ms vs))))).
Proof.
  intros Hdf Hs Hm Hv Hok Hne.
  rewrite calculate_means_cases, Hdf.
  rewrite (groupby_mean_by_columns df Hs Hm Hv), (numeric_column_ok Hok).
  destruct (group_rows_succeeds [] (rows_values_ok ss ms Hok)) as (gs & Hgs).
  rewrite Hgs. exists (unstack gs). split; [reflexivity |].
  assert (Hloc : mt_loc (unstack gs) s k
                 = Some (mean_of (fold_left add_value
                                    (group_values (s, k) (combine ss (combine ms vs)))
                                    group_init))).
  { apply mt_loc_unstack.
    rewrite (group_rows_state (s, k) _ _ Hgs). simpl.
    apply state_after_none. exact Hne. }
  split; [exact Hloc |].
  intros Hex. rewrite Hloc, mean_of_group by assumption. reflexivity.
Qed.

End MeanFacts.

(** * The properties on the sample objects *)

(** The round trip of the specification: "12.5 mm" under the Rainfall pattern. *)
Example extract_rainfall :
  fst (extract_measurement (CStr "12.5 mm") sample_processor)
  = Ok (Some "Rainfall", Some 12.5%float).
Proof. vm_compute. reflexivity. Qed.

(** A cell that is not a str cannot be searched. *)
Example extract_from_missing_message :
  fst (extract_measurement CNone sample_processor) = Raise TypeError.
Proof. vm_compute. reflexivity. Qed.

(** A pattern with no group matches and then has no value to give. *)
Example extract_without_group :
  fst (extract_measurement (CStr "5 mm")
         (__init__ (mkConfig "weather.csv" [("Rainfall", "mm")]) "INFO" fresh_logger))
  = Raise StopIteration.
Proof. vm_compute. reflexivity. Qed.

(** A capture that reads as NaN: the row has a kind and a float, and the mean
    will count the float as missing. *)
Example nan_value_counts_as_missing :
  fst (@extract_measurement nan_reading_lib (CStr "reading: nan")
         (__init__ (mkConfig "weather.csv" [("Reading", "(nan)")]) "INFO" fresh_logger))
  = Ok (Some "Reading", Some PrimFloat.nan)
  /\ present (value_cell (Some PrimFloat.nan)) = None.
Proof. split; vm_compute; reflexivity. Qed.

(** The floats nearest to 1.6, 1.2 and 1.4: the compensated sum and the plain
    sum differ in the last digit of the mean, so this list is not exactly
    summable. *)
Example compensated_and_plain_differ :
  let l := [0x1.999999999999ap+0; 0x1.3333333333333p+0; 0x1.6666666666666p+0]%float in
  (sumx (fold_left add_plain l group_init) / 3 = 0x1.6666666666665p+0)%float
  /\ (sumx (fold_left add_compensated l group_init) / 3 = 0x1.6666666666667p+0)%float
  /\ ~ exactly_summable l.
Proof.
  cbv zeta. split; [vm_compute; reflexivity |]. split; [vm_compute; reflexivity |].
  intros H. vm_compute in H. destruct H as (_ & H & _).
  apply (f_equal Prim2SF) in H. vm_compute in H. discriminate H.
Qed.

Example means_of_sample :
  option_map (fun mt => (mt_loc mt (KStr "S1") (KStr "Rainfall"),
                         mt_loc mt (KStr "S2") (KStr "Temperature"),
                         mt_loc mt (KStr "S3") (KStr "Rainfall")))
             (match fst (calculate_means (snd (process sample_processor))) with
              | Ok out => out
              | Raise _ => None
              end)
  = Some (Some 15%float, Some 21.5%float, None).
Proof. vm_compute. reflexivity. Qed.

(** The second of three patterns matches first, the third would match too. *)
Lemma extract_measurement_first_match_wins_witness :
  fst (extract_measurement (CStr "temp 21.5 C") priority_processor)
  = Ok (Some "Temperature", Some 21.5%float)
  /\ re_search "(\d+)" (CStr "temp 21.5 C") = Ok (Some [Some "21"]).
Proof.
  split.
  - apply (proj1 (@extract_measurement_first_match_wins fragment_lib
                    priority_processor (CStr "temp 21.5 C")
                    [("Rainfall", "(\d+(\.\d+)?)\s?mm")]
                    "Temperature" "(\d+(\.\d+)?)\s?C"
                    [("Reading", "(\d+)")]
                    [Some "21.5"; Some ".5"]
                    ltac:(reflexivity)
                    ltac:(constructor; [vm_compute; reflexivity | constructor])
                    ltac:(vm_compute; reflexivity))).
    vm_compute. reflexivity.
  - vm_compute. reflexivity.
Defined.

(** "fog" has no number in it. *)
Lemma extract_measurement_no_match_witness :
  fst (extract_measurement (CStr "fog") sample_processor) = Ok (None, None).
Proof.
  apply (@extract_measurement_no_match fragment_lib sample_processor (CStr "fog")).
  repeat (constructor; [vm_compute; reflexivity |]). constructor.
Defined.

(** The result for "rain 10 mm" has both components. *)
Lemma extract_measurement_all_or_nothing_witness :
  (Some "Rainfall" = None /\ Some 10%float = None)
  \/ (exists key value, Some "Rainfall" = Some key /\ Some 10%float = Some value).
Proof.
  apply (@extract_measurement_all_or_nothing fragment_lib sample_processor
           (CStr "rain 10 mm") (Some "Rainfall") (Some 10%float)).
  vm_compute. reflexivity.
Defined.

(** Two objects with the docstring patterns, one fresh, one with a table and
    another logger level. *)
Lemma extract_measurement_deterministic_witness :
  fst (extract_measurement (CStr "rain 10 mm") sample_processor)
  = fst (extract_measurement (CStr "rain 10 mm") loaded_empty).
Proof.
  apply (@extract_measurement_deterministic fragment_lib sample_processor loaded_empty
           (CStr "rain 10 mm")).
  reflexivity.
Defined.

(** The table with its columns and no row. *)
Lemma process_messages_empty_table_raises_witness :
  fst (process_messages loaded_empty) = Raise ValueError
  /\ weather_df (snd (process_messages loaded_empty)) = Some empty_df.
Proof.
  apply (@process_messages_empty_table_raises fragment_lib loaded_empty empty_df).
  - reflexivity.
  - reflexivity.
Defined.

(** The sample table keeps its station and message columns. *)
Lemma process_messages_keeps_other_columns_witness :
  exists df',
    weather_df (snd (process_messages loaded_sample)) = Some df'
    /\ nrows df' = nrows sample_df
    /\ (forall name, name <> "Measurement" -> name <> "Value" ->
                     get_column name df' = get_column name sample_df)
    /\ match fst (process_messages loaded_sample) with
       | Ok out =>
           out = Some df'
           /\ column_names df'
              = add_label "Value" (add_label "Measurement" (column_names sample_df))
       | Raise _ => df' = sample_df
       end.
Proof.
  apply (@process_messages_keeps_other_columns fragment_lib loaded_sample sample_df).
  reflexivity.
Defined.

(** C1 as stated fails: on the sample object [process] returns None, not the
    table that it leaves in [weather_df]. *)
Lemma process_does_not_return_the_table :
  fst (process sample_processor) = Ok None
  /\ exists df',
       weather_df (snd (process sample_processor)) = Some df'
       /\ get_column "Measurement" df'
          = Some [CStr "Rainfall"; CStr "Rainfall"; CStr "Temperature"; CNone]
       /\ get_column "Value" df' = Some [CFloat 10; CFloat 20; CFloat 21.5; CNone]
       /\ fst (process sample_processor) <> Ok (Some df').
Proof.
  split; [vm_compute; reflexivity |].
  eexists. split; [vm_compute; reflexivity |].
  split; [vm_compute; reflexivity |].
  split; [vm_compute; reflexivity |].
  intros H. vm_compute in H. discriminate H.
Qed.

(** The run on the sample object. *)
Lemma process_returns_none_and_leaves_table_witness :
  fst (process sample_processor) = Ok None
  /\ weather_df (snd (process sample_processor))
     = Some (augmented sample_df
               [(Some "Rainfall", Some 10%float); (Some "Rainfall", Some 20%float);
                (Some "Temperature", Some 21.5%float); (None, None)])
  /\ exists col res,
       get_column "Message" sample_df = Some col
       /\ fst (apply_series extract_measurement col sample_processor) = Ok res
       /\ augmented sample_df
            [(Some "Rainfall", Some 10%float); (Some "Rainfall", Some 20%float);
             (Some "Temperature", Some 21.5%float); (None, None)]
          = augmented sample_df res.
Proof.
  apply (@process_returns_none_and_leaves_table fragment_lib sample_processor sample_df).
  - reflexivity.
  - vm_compute. reflexivity.
Defined.

(** C3 as stated fails: after the load and before the extraction,
    [calculate_means] ends with the KeyError of the missing Measurement
    column, which is neither a report that the table is not ready nor the
    None it returns when there is no table. *)
Lemma calculate_means_crashes_on_missing_column :
  weather_df loaded_sample = Some sample_df
  /\ fst (calculate_means loaded_sample) = Raise (KeyError "Measurement")
  /\ fst (calculate_means loaded_sample) <> Ok None.
Proof.
  split; [reflexivity |].
  split; [vm_compute; reflexivity |].
  intros H. vm_compute in H. discriminate H.
Qed.

(** The sample object between the two steps, and a table of two rows there,
    where the two labels are read as row labels. *)
Lemma calculate_means_before_extraction_witness :
  calculate_means loaded_sample = (Raise (KeyError "Measurement"), loaded_sample)
  /\ calculate_means loaded_pair
     = (Raise (KeyError "Column not found: Value"), loaded_pair).
Proof.
  split.
  - apply (@calculate_means_before_extraction fragment_lib loaded_sample).
    intros df H. vm_compute in H. inversion H. reflexivity.
  - apply (@calculate_means_before_extraction fragment_lib loaded_pair).
    intros df H. vm_compute in H. inversion H. reflexivity.
Defined.

(** Station S1, Rainfall, 10.0 and 20.0: the mean is 15.0, with plain and
    with compensated sums, and also when the group has a row with a missing
    value and the table another group. *)
Lemma calculate_means_group_mean_witness :
  (exists mt,
     fst (calculate_means two_rows_processor) = Ok (Some mt)
     /\ mt_loc mt (KStr "S1") (KStr "Rainfall") = Some 15%float)
  /\ (exists mt,
        fst (@calculate_means compensating_lib two_rows_processor) = Ok (Some mt)
        /\ mt_loc mt (KStr "S1") (KStr "Rainfall") = Some 15%float)
  /\ (exists mt,
        fst (calculate_means mixed_processor) = Ok (Some mt)
        /\ mt_loc mt (KStr "S1") (KStr "Rainfall") = Some 15%float)
  /\ (exists mt,
        fst (calculate_means mixed_processor) = Ok (Some mt)
        /\ mt_loc mt (KStr "S2") (KStr "Temperature") = Some 5%float).
Proof.
  repeat split.
  - destruct (@calculate_means_group_mean fragment_lib two_rows_processor two_rows_df
                [CStr "S1"; CStr "S1"] [CStr "Rainfall"; CStr "Rainfall"]
                [CFloat 10; CFloat 20] (KStr "S1") (KStr "Rainfall")
                eq_refl eq_refl eq_refl eq_refl
                ltac:(repeat (constructor; [vm_compute; reflexivity |]); constructor)
                ltac:(vm_compute; discriminate))
      as (mt & Hrun & _ & Hmean).
    exists mt. split; [exact Hrun |].
    rewrite Hmean by (vm_compute; repeat split). vm_compute. reflexivity.
  - destruct (@calculate_means_group_mean compensating_lib two_rows_processor two_rows_df
                [CStr "S1"; CStr "S1"] [CStr "Rainfall"; CStr "Rainfall"]
                [CFloat 10; CFloat 20] (KStr "S1") (KStr "Rainfall")
                eq_refl eq_refl eq_refl eq_refl
                ltac:(repeat (constructor; [vm_compute; reflexivity |]); constructor)
                ltac:(vm_compute; discriminate))
      as (mt & Hrun & _ & Hmean).
    exists mt. split; [exact Hrun |].
    rewrite Hmean by (vm_compute; repeat split). vm_compute. reflexivity.
  - destruct (@calculate_means_group_mean fragment_lib mixed_processor mixed_df
                [CStr "S1"; CStr "S2"; CStr "S1"; CStr "S1"; CStr "S1"]
                [CStr "Rainfall"; CStr "Temperature"; CStr "Rainfall"; CNone;
                 CStr "Rainfall"]
                [CFloat 10; CFloat 5; CNone; CFloat 99; CFloat 20]
                (KStr "S1") (KStr "Rainfall")
                eq_refl eq_refl eq_refl eq_refl
                ltac:(repeat (constructor; [vm_compute; reflexivity |]); constructor)
                ltac:(vm_compute; discriminate))
      as (mt & Hrun & _ & Hmean).
    exists mt. split; [exact Hrun |].
    rewrite Hmean by (vm_compute; repeat split). vm_compute. reflexivity.
  - destruct (@calculate_means_group_mean fragment_lib mixed_processor mixed_df
                [CStr "S1"; CStr "S2"; CStr "S1"; CStr "S1"; CStr "S1"]
                [CStr "Rainfall"; CStr "Temperature"; CStr "Rainfall"; CNone;
                 CStr "Rainfall"]
                [CFloat 10; CFloat 5; CNone; CFloat 99; CFloat 20]
                (KStr "S2") (KStr "Temperature")
                eq_refl eq_refl eq_refl eq_refl
                ltac:(repeat (constructor; [vm_compute; reflexivity |]); constructor)
                ltac:(vm_compute; discriminate))
      as (mt & Hrun & _ & Hmean).
    exists mt. split; [exact Hrun |].
    rewrite Hmean by (vm_compute; repeat split). vm_compute. reflexivity.
Defined.

(** * Further properties of the class *)

(** ** The logger *)

Lemma log_record_disabled lvl msg lg :
  disabled lg = true -> log_record lvl msg lg = lg.
Proof. intros H. unfold log_record, is_enabled_for. rewrite H. reflexivity. Qed.

Lemma initialize_logging_handlers lvl lg :
  handlers (initialize_logging lvl lg) = handlers lg
  \/ (handlers lg = [] /\ handlers (initialize_logging lvl lg) = [log_format]).
Proof.
  unfold initialize_logging.
  destruct (String.eqb (upper lvl) "DEBUG"); [destruct (handlers lg); simpl; auto |].
  destruct (String.eqb (upper lvl) "INFO"); [destruct (handlers lg); simpl; auto |].
  destruct (String.eqb (upper lvl) "NONE"); [simpl; auto |].
  destruct (handlers lg); simpl; auto.
Qed.

Lemma initialize_logging_disabled lvl lg :
  disabled lg = true -> disabled (initialize_logging lvl lg) = true.
Proof.
  intros H. unfold initialize_logging.
  destruct (String.eqb (upper lvl) "DEBUG"); [exact H |].
  destruct (String.eqb (upper lvl) "INFO"); [exact H |].
  destruct (String.eqb (upper lvl) "NONE"); [reflexivity | exact H].
Qed.

Lemma initialize_logging_emitted lvl lg :
  emitted (initialize_logging lvl lg) = emitted lg.
Proof.
  unfold initialize_logging.
  destruct (String.eqb (upper lvl) "DEBUG"); [reflexivity |].
  destruct (String.eqb (upper lvl) "INFO"); [reflexivity |].
  destruct (String.eqb (upper lvl) "NONE"); reflexivity.
Qed.

(** X1: however many objects are constructed and whatever their levels, the
    handlers of the logger are the ones it had, or the single console handler
    when it had none: handlers never pile up. *)
Theorem initialize_all_never_stacks_handlers levels lg :
  handlers (initialize_all levels lg) = handlers lg
  \/ (handlers lg = [] /\ handlers (initialize_all levels lg) = [log_format]).
Proof.
  unfold initialize_all. revert lg.
  induction levels as [| lvl rest IH]; intros lg; simpl.
  - auto.
  - destruct (IH (initialize_logging lvl lg)) as [H | (H0 & H1)];
      destruct (initialize_logging_handlers lvl lg) as [G | (G0 & G1)].
    + left. congruence.
    + right. split; [exact G0 | congruence].
    + right. split; congruence.
    + rewrite G1 in H0. discriminate.
Qed.

(** X2: a level that is none of DEBUG, INFO and NONE, in any letter case,
    configures the logger exactly as INFO does. *)
Theorem initialize_logging_defaults_to_info lvl lg :
  upper lvl <> "DEBUG" -> upper lvl <> "NONE" ->
  initialize_logging lvl lg = initialize_logging "INFO" lg.
Proof.
  intros Hd Hn. unfold initialize_logging.
  destruct (String.eqb_spec (upper lvl) "DEBUG"); [contradiction |].
  destruct (String.eqb_spec (upper lvl) "NONE"); [contradiction |].
  simpl. destruct (String.eqb (upper lvl) "INFO"); reflexivity.
Qed.

Section MoreFacts.

Context {lib : PyLib}.

(** ** A disabled logger *)

Lemma extract_loop_logger_disabled items message self :
  disabled (logger self) = true ->
  logger (snd (extract_loop items message self)) = logger self.
Proof.
  intros Hd. revert self Hd.
  induction items as [| [key pattern] rest IH]; intros self Hd; simpl.
  - run_m. apply log_record_disabled. exact Hd.
  - run_m. destruct (re_search pattern message) as [[groups |] | e]; simpl.
    + rewrite log_record_disabled by exact Hd.
      destruct (captured_value groups); reflexivity.
    + apply IH. exact Hd.
    + reflexivity.
Qed.

Lemma apply_series_logger_disabled col self :
  disabled (logger self) = true ->
  logger (snd (apply_series extract_measurement col self)) = logger self.
Proof.
  revert self. induction col as [| c rest IH]; intros self Hd.
  - reflexivity.
  - rewrite apply_series_cons.
    pose proof (extract_loop_logger_disabled (patterns self) c self Hd) as H1.
    change (extract_loop (patterns self) c self) with (extract_measurement c self) in H1.
    destruct (extract_measurement c self) as [[a | e] s1]; simpl in H1.
    + assert (Hd1 : disabled (logger s1) = true) by (rewrite H1; exact Hd).
      specialize (IH s1 Hd1).
      destruct (apply_series extract_measurement rest s1) as [[r | e] s2];
        simpl in *; congruence.
    + exact H1.
Qed.

Lemma process_messages_logger_disabled self :
  disabled (logger self) = true ->
  logger (snd (process_messages self)) = logger self.
Proof.
  intros Hd. rewrite process_messages_cases.
  destruct (weather_df self) as [df |];
    [| simpl; apply log_record_disabled; exact Hd].
  destruct (get_column "Message" df) as [col |]; [| reflexivity].
  pose proof (apply_series_logger_disabled col self Hd) as H1.
  destruct (apply_series extract_measurement col self) as [[res | e] s1];
    simpl in H1; [| exact H1].
  destruct res; [exact H1 |].
  destruct (Nat.eqb (length col) (nrows df)); [| exact H1].
  simpl. rewrite log_record_disabled by (rewrite H1; exact Hd). exact H1.
Qed.

Lemma process_logger_disabled self :
  disabled (logger self) = true ->
  logger (snd (process self)) = logger self.
Proof.
  intros Hd. rewrite process_cases, weather_station_mapping_cases.
  destruct (read_from_web_CSV (weather_station_data self)) as [df | e]; [| reflexivity].
  set (s0 := set_logger _ _).
  assert (H0 : logger s0 = logger self)
    by (unfold s0; simpl; apply log_record_disabled; exact Hd).
  assert (Hd0 : disabled (logger s0) = true) by (rewrite H0; exact Hd).
  pose proof (process_messages_logger_disabled s0 Hd0) as H1.
  destruct (process_messages s0) as [[out | e] s2]; simpl in *.
  - rewrite log_record_disabled by congruence. congruence.
  - congruence.
Qed.

Lemma calculate_means_logger_disabled self :
  disabled (logger self) = true ->
  logger (snd (calculate_means self)) = logger self.
Proof.
  intros Hd. rewrite calculate_means_cases.
  destruct (weather_df self) as [df |];
    [| simpl; apply log_record_disabled; exact Hd].
  destruct (groupby_mean df) as [means | e]; [| reflexivity].
  destruct (unstack_series means); simpl; apply log_record_disabled; exact Hd.
Qed.

(** X3: on an object whose logger is disabled, no method records anything:
    [process], [process_messages], [calculate_means] and
    [extract_measurement] leave the logger exactly as it was. *)
Theorem disabled_logger_records_nothing self message :
  disabled (logger self) = true ->
  logger (snd (process self)) = logger self
  /\ logger (snd (process_messages self)) = logger self
  /\ logger (snd (calculate_means self)) = logger self
  /\ logger (snd (extract_measurement message self)) = logger self.
Proof.
  intros Hd. repeat split.
  - apply process_logger_disabled. exact Hd.
  - apply process_messages_logger_disabled. exact Hd.
  - apply calculate_means_logger_disabled. exact Hd.
  - unfold extract_measurement. apply extract_loop_logger_disabled. exact Hd.
Qed.

(** X4: the level NONE is permanent for the logger of the class: once an
    object was constructed with NONE, an object constructed afterwards with
    any level, DEBUG included, records nothing when it runs [process], since
    [initialize_logging] never enables the logger again. *)
Theorem none_silences_later_objects config1 config2 lvl lg :
  let lg1 := logger (__init__ config1 "NONE" lg) in
  let later := __init__ config2 lvl lg1 in
  disabled (logger later) = true
  /\ emitted (logger (snd (process later))) = emitted lg.
Proof.
  cbv zeta.
  assert (Hd : disabled (logger (__init__ config2 lvl
                                   (logger (__init__ config1 "NONE" lg)))) = true)
    by (simpl; apply initialize_logging_disabled; reflexivity).
  split; [exact Hd |].
  rewrite process_logger_disabled by exact Hd.
  simpl. rewrite initialize_logging_emitted. reflexivity.
Qed.

(** ** extract_measurement on what it cannot read *)

Lemma extract_loop_first_raise pre key pattern post message e self :
  Forall (no_match message) pre ->
  re_search pattern message = Raise e ->
  fst (extract_loop (pre ++ (key, pattern) :: post) message self) = Raise e.
Proof.
  intros Hpre Hm. revert self.
  induction Hpre as [| [k p] rest Hx _ IH]; intros self; simpl.
  - run_m. rewrite Hm. reflexivity.
  - run_m. unfold no_match in Hx. simpl in Hx. rewrite Hx. apply IH.
Qed.

(** X5: with at least one pattern, the first of which compiles, a message
    that is not a str (a missing cell, a number) makes [extract_measurement]
    raise TypeError. *)
Theorem extract_measurement_rejects_non_str self message key pattern rest :
  patterns self = (key, pattern) :: rest ->
  re_compile pattern <> None ->
  (forall s, message <> CStr s) ->
  fst (extract_measurement message self) = Raise TypeError.
Proof.
  intros Hp Hc Hm. unfold extract_measurement. rewrite Hp.
  apply extract_loop_first_raise with (pre := []); [constructor |].
  unfold re_search. destruct (re_compile pattern); [| congruence].
  destruct message; try reflexivity. exfalso. eapply Hm. reflexivity.
Qed.

(** X6: a pattern that does not compile makes [extract_measurement] raise the
    error of [re] as soon as the loop reaches it, that is when no pattern
    before it matches the message; the patterns after it are not tried. *)
Theorem extract_measurement_bad_pattern self message pre key pattern post :
  patterns self = pre ++ (key, pattern) :: post ->
  Forall (no_match message) pre ->
  re_compile pattern = None ->
  fst (extract_measurement message self) = Raise ReError.
Proof.
  intros Hp Hpre Hc. unfold extract_measurement. rewrite Hp.
  apply extract_loop_first_raise; [exact Hpre |].
  unfold re_search. rewrite Hc. reflexivity.
Qed.

Lemma next_not_none_find groups :
  next_not_none groups =
  match find participates groups with
  | Some (Some x) => Ok x
  | _ => Raise StopIteration
  end.
Proof.
  induction groups as [| [x |] rest IH]; simpl; auto.
Qed.

(** X7: the value returned with the kind is read from the first group that
    took part in the match, whatever the later groups hold: it is [float] of
    that group, ValueError when the group is no float literal, and
    StopIteration when no group took part. *)
Theorem extract_measurement_value_from_first_group
        self message pre key pattern post groups :
  patterns self = pre ++ (key, pattern) :: post ->
  Forall (no_match message) pre ->
  re_search pattern message = Ok (Some groups) ->
  fst (extract_measurement message self) =
  match find participates groups with
  | Some (Some x) =>
      match float_of_str x with
      | Some v => Ok (Some key, Some v)
      | None => Raise ValueError
      end
  | _ => Raise StopIteration
  end.
Proof.
  intros Hp Hpre Hm. unfold extract_measurement. rewrite Hp.
  rewrite extract_loop_first_match with (groups := groups) by assumption.
  unfold captured_value. rewrite next_not_none_find.
  destruct (find participates groups) as [[x |] |]; try reflexivity.
  unfold py_float. destruct (float_of_str x); reflexivity.
Qed.

(** ** process_messages, row by row *)

Lemma apply_series_rows col self res :
  fst (apply_series extract_measurement col self) = Ok res ->
  Forall2 (fun c r => fst (extract_measurement c self) = Ok r) col res.
Proof.
  revert self res. induction col as [| c rest IH]; intros self res.
  - simpl. intros H. inversion H. constructor.
  - rewrite apply_series_cons.
    pose proof (extract_measurement_frame c self) as Hf. simpl in Hf.
    destruct (extract_measurement c self) as [[a | e] s1] eqn:Hc; simpl in Hf;
      [| simpl; discriminate].
    destruct Hf as (_ & Hp & _).
    specialize (IH s1).
    destruct (apply_series extract_measurement rest s1) as [[r | e] s2]; simpl in *;
      [| discriminate].
    intros H. inversion H; subst res. constructor.
    + rewrite Hc. reflexivity.
    + specialize (IH r eq_refl).
      eapply Forall2_impl; [| exact IH]. simpl. intros c' r' Hr.
      rewrite <- Hr. apply extract_measurement_outcome. symmetry. exact Hp.
Qed.

Lemma apply_series_succeeds col self :
  Forall (fun c => is_ok (fst (extract_measurement c self)) = true) col ->
  exists res, fst (apply_series extract_measurement col self) = Ok res.
Proof.
  intros H. revert self H. induction col as [| c rest IH]; intros self H.
  - simpl. eauto.
  - inversion H as [| c' rest' Hc Hrest]; subst.
    rewrite apply_series_cons.
    pose proof (extract_measurement_frame c self) as Hf. simpl in Hf.
    destruct (extract_measurement c self) as [[a | e] s1]; simpl in *; [| discriminate].
    destruct Hf as (_ & Hp & _).
    destruct (IH s1) as (r & Hr).
    + eapply Forall_impl; [| exact Hrest]. simpl. intros c' Hc'.
      rewrite <- Hc'. f_equal. apply extract_measurement_outcome. exact Hp.
    + destruct (apply_series extract_measurement rest s1) as [[r' | e] s2];
        simpl in *; [eauto | discriminate].
Qed.

Lemma apply_series_raises col self c :
  In c col ->
  is_ok (fst (extract_measurement c self)) = false ->
  exists e, fst (apply_series extract_measurement col self) = Raise e.
Proof.
  revert self. induction col as [| c0 rest IH]; intros self Hin Hbad.
  - contradiction.
  - rewrite apply_series_cons.
    pose proof (extract_measurement_frame c0 self) as Hf. simpl in Hf.
    destruct (extract_measurement c0 self) as [[a | e] s1] eqn:Hc0; simpl in Hf;
      [| simpl; eauto].
    destruct Hf as (_ & Hp & _).
    destruct Hin as [Heq | Hin].
    + subst c0. rewrite Hc0 in Hbad. discriminate.
    + destruct (IH s1 Hin) as (e & He).
      * rewrite <- Hbad. f_equal. apply extract_measurement_outcome. exact Hp.
      * destruct (apply_series extract_measurement rest s1) as [[r | e'] s2];
          simpl in *; [discriminate | eauto].
Qed.

Lemma Forall2_nth_error_l {A B} (R : A -> B -> Prop) l1 l2 i a :
  Forall2 R l1 l2 -> nth_error l1 i = Some a ->
  exists b, nth_error l2 i = Some b /\ R a b.
Proof.
  intros H. revert i. induction H as [| x y l1 l2 Hxy _ IH]; intros i Hi.
  - destruct i; discriminate.
  - destruct i as [| i]; simpl in *.
    + inversion Hi; subst. eauto.
    + apply IH. exact Hi.
Qed.

Lemma get_column_length df name col :
  well_formed df -> get_column name df = Some col -> length col = nrows df.
Proof.
  unfold well_formed, get_column. intros Hwf.
  induction Hwf as [| [n c] rest Hc _ IH]; simpl.
  - discriminate.
  - destruct (String.eqb n name).
    + intros H. inversion H; subst. exact Hc.
    + exact IH.
Qed.

Lemma assoc_set_well_formed n name (v : list cell) cols :
  length v = n ->
  Forall (fun c => length (snd c) = n) cols ->
  Forall (fun c : string * list cell => length (snd c) = n) (assoc_set name v cols).
Proof.
  intros Hv H. induction H as [| [m w] rest Hw Hrest IH]; simpl.
  - constructor; [exact Hv | constructor].
  - destruct (String.eqb m name); constructor; auto.
Qed.

(** X8: a freshly constructed object has no table: [process_messages] and
    [calculate_means] both return None on it, and it still has no table
    afterwards. *)
Theorem fresh_object_has_no_table config lvl lg :
  let self := __init__ config lvl lg in
  fst (process_messages self) = Ok None
  /\ weather_df (snd (process_messages self)) = None
  /\ fst (calculate_means self) = Ok None
  /\ weather_df (snd (calculate_means self)) = None.
Proof.
  cbv zeta. rewrite process_messages_cases, calculate_means_cases. simpl. auto.
Qed.

(** X9: on a table without a Message column [process_messages] raises
    KeyError for that label and leaves the object as it was, logger
    included. *)
Theorem process_messages_missing_message_column self df :
  weather_df self = Some df ->
  get_column "Message" df = None ->
  process_messages self = (Raise (KeyError "Message"), self).
Proof.
  intros Hdf Hcol. rewrite process_messages_cases, Hdf, Hcol. reflexivity.
Qed.

(** X10: in the table that [process_messages] returns, the Measurement and
    Value cells of a row are the two components of [extract_measurement] on
    the message of that same row: rows keep their positions, and a row's
    result does not depend on the other rows. *)
Theorem process_messages_row_by_row self df col df' :
  weather_df self = Some df ->
  get_column "Message" df = Some col ->
  fst (process_messages self) = Ok (Some df') ->
  exists ms vs,
    get_column "Measurement" df' = Some ms
    /\ get_column "Value" df' = Some vs
    /\ length ms = nrows df' /\ length vs = nrows df'
    /\ forall i c, nth_error col i = Some c ->
         exists k v,
           fst (extract_measurement c self) = Ok (k, v)
           /\ nth_error ms i = Some (measurement_cell k)
           /\ nth_error vs i = Some (value_cell v).
Proof.
  intros Hdf Hcol Hrun.
  destruct (process_messages_returns_table self Hrun)
    as (df0 & col0 & res & Hdf0 & Hcol0 & Happ & Hne & Hlen & -> & _).
  assert (df0 = df) by congruence. subst df0.
  assert (col0 = col) by congruence. subst col0.
  pose proof (apply_series_length col self Happ) as Hl.
  exists (map (fun t => measurement_cell (fst t)) res),
         (map (fun t => value_cell (snd t)) res).
  split; [apply augmented_measurement |].
  split; [apply augmented_value |].
  rewrite !length_map, augmented_nrows.
  split; [congruence |]. split; [congruence |].
  intros i c Hi.
  destruct (Forall2_nth_error_l i (apply_series_rows col self Happ) Hi)
    as ([k v] & Hr & Hext).
  exists k, v. split; [exact Hext |].
  rewrite !nth_error_map, Hr. auto.
Qed.

(** X11: in the table that [process_messages] returns, every row has either
    None under both Measurement and Value, or a str under Measurement and a
    float under Value.  The float is what [float] returned: it is NaN when
    the captured text reads as NaN, and pandas then counts the value as
    missing although the row has a Measurement. *)
Theorem process_messages_rows_all_or_nothing self df' :
  fst (process_messages self) = Ok (Some df') ->
  exists ms vs,
    get_column "Measurement" df' = Some ms
    /\ get_column "Value" df' = Some vs
    /\ Forall2 (fun m v =>
                  (m = CNone /\ v = CNone)
                  \/ (exists k x, m = CStr k /\ v = CFloat x)) ms vs.
Proof.
  intros Hrun.
  destruct (process_messages_returns_table self Hrun)
    as (df & col & res & Hdf & Hcol & Happ & Hne & Hlen & -> & _).
  exists (map (fun t => measurement_cell (fst t)) res),
         (map (fun t => value_cell (snd t)) res).
  split; [apply augmented_measurement |].
  split; [apply augmented_value |].
  pose proof (apply_series_rows col self Happ) as Hrows.
  clear Happ Hne Hlen Hcol Hrun.
  induction Hrows as [| c [k x] col' res' Hext _ IH]; simpl.
  - constructor.
  - constructor; [| exact IH].
    unfold extract_measurement in Hext.
    destruct (extract_loop_all_or_nothing _ _ _ Hext)
      as [(-> & ->) | (k' & x' & -> & ->)]; simpl.
    + left. auto.
    + right. eauto.
Qed.

(** X12: [process_messages] keeps the table well formed: when every column
    had one cell per row before the call, so has every column after it,
    Measurement and Value included, whether the call returned or raised. *)
Theorem process_messages_keeps_well_formed self df df' :
  weather_df self = Some df ->
  well_formed df ->
  weather_df (snd (process_messages self)) = Some df' ->
  well_formed df'.
Proof.
  intros Hdf Hwf Hafter.
  destruct (fst (process_messages self)) as [[out |] | e] eqn:Hrun.
  - destruct (process_messages_returns_table self Hrun)
      as (df0 & col & res & Hdf0 & Hcol & Happ & Hne & Hlen & -> & Hdf').
    assert (df0 = df) by congruence. subst df0.
    assert (df' = augmented df res) by congruence. subst df'.
    pose proof (apply_series_length col self Happ) as Hl.
    unfold well_formed, augmented. simpl.
    apply assoc_set_well_formed; [rewrite length_map; congruence |].
    apply assoc_set_well_formed; [rewrite length_map; congruence |].
    exact Hwf.
  - rewrite process_messages_no_table in Hafter by (intros d Hd; congruence).
    congruence.
  - rewrite process_messages_no_table in Hafter by (intros d Hd; congruence).
    congruence.
Qed.

(** X13: on a well-formed table with a Message column and at least one row,
    when [extract_measurement] returns for every message, [process_messages]
    returns a table, and that table is the one the object holds afterwards. *)
Theorem process_messages_succeeds self df col :
  weather_df self = Some df ->
  well_formed df ->
  get_column "Message" df = Some col ->
  nrows df <> O ->
  Forall (fun c => is_ok (fst (extract_measurement c self)) = true) col ->
  exists df',
    fst (process_messages self) = Ok (Some df')
    /\ weather_df (snd (process_messages self)) = Some df'.
Proof.
  intros Hdf Hwf Hcol Hrows Hall.
  destruct (apply_series_succeeds self Hall) as (res & Happ).
  pose proof (get_column_length _ Hwf Hcol) as Hlen.
  pose proof (apply_series_length col self Happ) as Hl.
  exists (augmented df res).
  apply process_messages_run with (col := col); auto.
  intros ->. simpl in Hl. congruence.
Qed.

(** X14: one message on which [extract_measurement] raises makes
    [process_messages] raise, and then no column is written: the table is the
    one from before the call. *)
Theorem process_messages_one_bad_row self df col c :
  weather_df self = Some df ->
  get_column "Message" df = Some col ->
  In c col ->
  is_ok (fst (extract_measurement c self)) = false ->
  exists e,
    fst (process_messages self) = Raise e
    /\ weather_df (snd (process_messages self)) = Some df.
Proof.
  intros Hdf Hcol Hin Hbad.
  destruct (apply_series_raises col self c Hin Hbad) as (e & He).
  assert (Hrun : fst (process_messages self) = Raise e).
  { rewrite process_messages_cases, Hdf, Hcol.
    destruct (apply_series extract_measurement col self) as [[r | e'] s1];
      simpl in He; [discriminate |]. simpl. congruence. }
  exists e. split; [exact Hrun |].
  rewrite process_messages_no_table by (intros d Hd; congruence). exact Hdf.
Qed.

(** ** process, step by step *)

Lemma process_messages_locator self :
  weather_station_data (snd (process_messages self)) = weather_station_data self.
Proof.
  rewrite process_messages_cases.
  destruct (weather_df self) as [df |]; [| reflexivity].
  destruct (get_column "Message" df) as [col |]; [| reflexivity].
  pose proof (apply_series_frame col self) as Hf. simpl in Hf.
  destruct (apply_series extract_measurement col self) as [[res | e] s1];
    simpl in Hf; destruct Hf as (Hl & _ & _); [| exact Hl].
  destruct res; [exact Hl |].
  destruct (Nat.eqb (length col) (nrows df)); exact Hl.
Qed.

(** [process] after a load that gave [df], in terms of [process_messages] on
    the loaded object. *)
Lemma process_loaded self df :
  read_from_web_CSV (weather_station_data self) = Ok df ->
  let s0 := snd (weather_station_mapping self) in
  weather_df s0 = Some df
  /\ patterns s0 = patterns self
  /\ fst (process self)
     = match fst (process_messages s0) with
       | Ok _ => Ok None
       | Raise e => Raise e
       end
  /\ weather_df (snd (process self)) = weather_df (snd (process_messages s0))
  /\ patterns (snd (process self)) = patterns self
  /\ weather_station_data (snd (process self)) = weather_station_data self.
Proof.
  intros Hload. cbv zeta. rewrite process_cases.
  rewrite weather_station_mapping_cases, Hload.
  set (s0 := set_logger _ _). cbn [fst snd].
  pose proof (process_messages_patterns s0) as Hp.
  pose proof (process_messages_locator s0) as Hl.
  destruct (process_messages s0) as [[out | e] s2]; simpl in *; repeat split; auto.
Qed.

Lemma process_load_failure_state self e :
  read_from_web_CSV (weather_station_data self) = Raise e ->
  process self = (Raise e, self).
Proof.
  intros Hload. rewrite process_cases, weather_station_mapping_cases, Hload.
  reflexivity.
Qed.

(** X15: when the load fails, [process] raises what the loader raised and the
    object is as it was before the call: the table it held is still there and
    nothing was recorded. *)
Theorem process_load_failure self e :
  read_from_web_CSV (weather_station_data self) = Raise e ->
  process self = (Raise e, self).
Proof.
  intros Hload. rewrite process_cases, weather_station_mapping_cases, Hload.
  reflexivity.
Qed.

(** X16: when the load succeeds and the extraction raises, [process] raises
    the same exception, and the object is left holding the freshly loaded
    table without the derived columns written by this call: there is no
    rollback to the table from before. *)
Theorem process_extraction_failure self df e :
  read_from_web_CSV (weather_station_data self) = Ok df ->
  fst (process_messages (snd (weather_station_mapping self))) = Raise e ->
  fst (process self) = Raise e
  /\ weather_df (snd (process self)) = Some df.
Proof.
  intros Hload Hrun.
  destruct (process_loaded self Hload) as (Hdf & _ & Hfst & Htab & _).
  rewrite Hfst, Htab, Hrun. split; [reflexivity |].
  rewrite process_messages_no_table by (intros d Hd; congruence).
  exact Hdf.
Qed.

(** X17: [process] starts from the locator: the table the object held and
    the state of its logger change neither the outcome nor, when the load
    succeeds, the table that is left. *)
Theorem process_ignores_previous_table self d lg :
  let other := set_logger lg (set_weather_df d self) in
  fst (process other) = fst (process self)
  /\ (is_ok (read_from_web_CSV (weather_station_data self)) = true ->
      weather_df (snd (process other)) = weather_df (snd (process self))).
Proof.
  cbv zeta. set (other := set_logger lg (set_weather_df d self)).
  destruct (read_from_web_CSV (weather_station_data self)) as [df | e] eqn:Hload.
  - assert (Hload' : read_from_web_CSV (weather_station_data other) = Ok df) by exact Hload.
    destruct (process_loaded self Hload) as (Hdf & Hp & Hfst & Htab & _).
    destruct (process_loaded other Hload') as (Hdf2 & Hp2 & Hfst2 & Htab2 & _).
    destruct (process_messages_depends
                (snd (weather_station_mapping other))
                (snd (weather_station_mapping self))) as (Ho & Ht).
    + rewrite Hp2, Hp. reflexivity.
    + congruence.
    + rewrite Hfst2, Htab2, Hfst, Htab, Ho, Ht. auto.
  - assert (Hload' : read_from_web_CSV (weather_station_data other) = Raise e) by exact Hload.
    rewrite (process_load_failure_state self Hload).
    rewrite (process_load_failure_state other Hload'). simpl.
    split; [reflexivity | discriminate].
Qed.

(** ** calculate_means, label by label *)

Lemma in_group_spec g r :
  in_group g r = true
  <-> key_of (fst r) = Some (fst g) /\ key_of (fst (snd r)) = Some (snd g).
Proof.
  unfold in_group. destruct g as [s k]. simpl.
  destruct (key_of (fst r)) as [ks |]; [| split; [discriminate | intros (H & _); discriminate]].
  destruct (key_of (fst (snd r))) as [km |];
    [| split; [discriminate | intros (_ & H); discriminate]].
  rewrite group_eqb_eq. split.
  - intros H. inversion H. auto.
  - intros (H1 & H2). inversion H1. inversion H2. reflexivity.
Qed.

Lemma add_obs_labels g h x gs :
  In g (map fst (add_obs h x gs)) <-> g = h \/ In g (map fst gs).
Proof.
  induction gs as [| [h' a] rest IH]; simpl.
  - intuition.
  - destruct (group_eqb h' h) eqn:E; simpl.
    + apply group_eqb_eq in E. subst h'. intuition.
    + rewrite IH. intuition.
Qed.

(** The groups after the rows are the groups from before and the label pairs
    of the rows that have both labels. *)
Lemma group_rows_labels rows gs0 gs g :
  group_rows rows gs0 = Ok gs ->
  (In g (map fst gs)
   <-> In g (map fst gs0) \/ exists r, In r rows /\ in_group g r = true).
Proof.
  revert gs0. induction rows as [| r rest IH]; intros gs0; simpl.
  - intros H. inversion H; subst. split; [auto |].
    intros [H0 | (r & [] & _)]. exact H0.
  - destruct (group_step gs0 r) as [gs1 | e] eqn:Hstep; [| discriminate].
    intros H. rewrite (IH _ H). clear IH H.
    unfold group_step in Hstep.
    pose proof (in_group_spec g r) as Hspec.
    destruct (key_of (fst r)) as [ks |] eqn:Hks.
    + destruct (key_of (fst (snd r))) as [km |] eqn:Hkm.
      * destruct (as_number (snd (snd r))) as [x | e]; [| discriminate].
        inversion Hstep; subst gs1. rewrite add_obs_labels.
        split.
        -- intros [[Hg | Hin] | (r' & Hin & Hr')].
           ++ right. exists r. split; [auto |]. apply Hspec. subst g. auto.
           ++ auto.
           ++ right. exists r'. auto.
        -- intros [Hin | (r' & [Heq | Hin] & Hr')].
           ++ auto.
           ++ subst r'. left. left. apply Hspec in Hr'. destruct Hr' as (H1 & H2).
              inversion H1. inversion H2. destruct g. reflexivity.
           ++ right. exists r'. auto.
      * inversion Hstep; subst gs1. split.
        -- intros [Hin | (r' & Hin & Hr')]; [auto | right; exists r'; auto].
        -- intros [Hin | (r' & [Heq | Hin] & Hr')].
           ++ auto.
           ++ subst r'. apply Hspec in Hr'. destruct Hr' as (_ & H2). discriminate.
           ++ right. exists r'. auto.
    + inversion Hstep; subst gs1. split.
      * intros [Hin | (r' & Hin & Hr')]; [auto | right; exists r'; auto].
      * intros [Hin | (r' & [Heq | Hin] & Hr')].
        -- auto.
        -- subst r'. apply Hspec in Hr'. destruct Hr' as (H1 & _). discriminate.
        -- right. exists r'. auto.
Qed.

Lemma state_after_none_cases g rows :
  state_after g rows None = None
  \/ state_after g rows None
     = Some (fold_left add_value (group_values g rows) group_init).
Proof.
  induction rows as [| r rest IH]; simpl.
  - auto.
  - destruct (in_group g r); [| exact IH].
    right. destruct (present (snd (snd r))); simpl; rewrite state_after_some; reflexivity.
Qed.

(** The columns [calculate_means] reads and the groups it forms when it
    returns a table. *)
Lemma calculate_means_returns self df ss ms vs mt :
  weather_df self = Some df ->
  get_column "Weather_station_ID" df = Some ss ->
  get_column "Measurement" df = Some ms ->
  get_column "Value" df = Some vs ->
  fst (calculate_means self) = Ok (Some mt) ->
  exists gs, group_rows (combine ss (combine ms vs)) [] = Ok gs /\ mt = unstack gs.
Proof.
  intros Hdf Hs Hm Hv. rewrite calculate_means_cases, Hdf.
  rewrite (groupby_mean_by_columns df Hs Hm Hv).
  destruct (numeric_column vs); [| simpl; discriminate].
  destruct (group_rows (combine ss (combine ms vs)) []) as [gs | e]; simpl;
    [| discriminate].
  intros H. inversion H. eauto.
Qed.

Lemma value_cells_numeric (res : list (option string * option float)) :
  numeric_column (map (fun t => value_cell (snd t)) res) = true.
Proof.
  apply numeric_column_ok. apply Forall_forall. intros c Hin.
  apply in_map_iff in Hin. destruct Hin as ([k [v |]] & <- & _); reflexivity.
Qed.

(** Without a station column the list is read as row labels exactly on a
    table of two rows. *)
Lemma by_is_row_labels_no_station df :
  get_column "Weather_station_ID" df = None ->
  by_is_row_labels df = Nat.eqb 2 (nrows df).
Proof.
  intros H. unfold by_is_row_labels, has_column. simpl. rewrite H.
  simpl. apply andb_true_r.
Qed.

(** X18: [calculate_means] only reads: the table, the patterns and the
    locator of the object are the same after the call, so a second call has
    the outcome of the first. *)
Theorem calculate_means_read_only self :
  weather_df (snd (calculate_means self)) = weather_df self
  /\ patterns (snd (calculate_means self)) = patterns self
  /\ weather_station_data (snd (calculate_means self)) = weather_station_data self
  /\ fst (calculate_means (snd (calculate_means self))) = fst (calculate_means self).
Proof.
  assert (H : weather_df (snd (calculate_means self)) = weather_df self
              /\ patterns (snd (calculate_means self)) = patterns self
              /\ weather_station_data (snd (calculate_means self))
                 = weather_station_data self).
  { rewrite calculate_means_cases.
    destruct (weather_df self) as [df |] eqn:Hdf; [| simpl; auto].
    destruct (groupby_mean df) as [means | e]; [| simpl; auto].
    destruct (unstack_series means); simpl; auto. }
  destruct H as (H1 & H2 & H3). repeat split; auto.
  rewrite (calculate_means_cases (snd (calculate_means self))), H1.
  rewrite (calculate_means_cases self).
  destruct (weather_df self) as [df |]; [| reflexivity].
  destruct (groupby_mean df) as [means | e]; [| reflexivity].
  destruct (unstack_series means); reflexivity.
Qed.

(** X19: after a [process_messages] that returned a table, [calculate_means]
    returns a table of means when the table has a Weather_station_ID column:
    the columns that [process_messages] wrote never make it fail.  When the
    table has no such column it raises KeyError for that label, except on a
    table of two rows, where pandas reads the two labels as row labels,
    computes the means and then fails in [unstack] with ValueError. *)
Theorem calculate_means_after_extraction self df' :
  fst (process_messages self) = Ok (Some df') ->
  match get_column "Weather_station_ID" df' with
  | Some _ =>
      exists mt, fst (calculate_means (snd (process_messages self))) = Ok (Some mt)
  | None =>
      fst (calculate_means (snd (process_messages self)))
      = Raise (if Nat.eqb 2 (nrows df')
               then ValueError
               else KeyError "Weather_station_ID")
  end.
Proof.
  intros Hrun.
  destruct (process_messages_returns_table self Hrun)
    as (df & col & res & Hdf & Hcol & Happ & Hne & Hlen & -> & Hafter).
  rewrite calculate_means_cases, Hafter.
  destruct (get_column "Weather_station_ID" (augmented df res)) as [ss |] eqn:Hss.
  - rewrite (groupby_mean_by_columns _ Hss (augmented_measurement df res)
               (augmented_value df res)).
    rewrite value_cells_numeric.
    destruct (group_rows_succeeds (rows :=
                combine ss (combine (map (fun t => measurement_cell (fst t)) res)
                                    (map (fun t => value_cell (snd t)) res))) [])
      as (gs & Hgs).
    + apply rows_values_ok. apply numeric_column_values. apply value_cells_numeric.
    + rewrite Hgs. simpl. eauto.
  - unfold groupby_mean. rewrite (by_is_row_labels_no_station _ Hss).
    destruct (Nat.eqb 2 (nrows (augmented df res))).
    + rewrite augmented_value, value_cells_numeric. reflexivity.
    + unfold getitem. rewrite Hss. reflexivity.
Qed.

(** X20: a station is a row of the table of means exactly when some row of
    its has a Measurement, and a measurement is a column exactly when some
    row with a station carries it: a station whose messages all went
    unmatched is not in the table. *)
Theorem calculate_means_labels self df ss ms vs mt :
  weather_df self = Some df ->
  get_column "Weather_station_ID" df = Some ss ->
  get_column "Measurement" df = Some ms ->
  get_column "Value" df = Some vs ->
  fst (calculate_means self) = Ok (Some mt) ->
  (forall s, In s (mt_index mt)
             <-> exists r, In r (combine ss (combine ms vs))
                           /\ key_of (fst r) = Some s
                           /\ key_of (fst (snd r)) <> None)
  /\ (forall k, In k (mt_columns mt)
                <-> exists r, In r (combine ss (combine ms vs))
                              /\ key_of (fst r) <> None
                              /\ key_of (fst (snd r)) = Some k).
Proof.
  intros Hdf Hs Hm Hv Hrun.
  destruct (calculate_means_returns self Hdf Hs Hm Hv Hrun) as (gs & Hgs & ->).
  unfold unstack. simpl. split.
  - intros s. rewrite sorted_keys_in, in_map_iff. split.
    + intros ([[s' k] a] & Heq & Hin). simpl in Heq. subst s'.
      assert (Hg : In (s, k) (map fst gs))
        by (apply in_map_iff; exists ((s, k), a); auto).
      apply (group_rows_labels _ _ (s, k) Hgs) in Hg.
      destruct Hg as [[] | (r & Hr & Hin')].
      apply in_group_spec in Hin'. destruct Hin' as (H1 & H2). simpl in H1, H2.
      exists r. repeat split; auto. congruence.
    + intros (r & Hr & Hks & Hkm).
      destruct (key_of (fst (snd r))) as [k |] eqn:Ek; [| congruence].
      assert (Hg : In (s, k) (map fst gs)).
      { apply (group_rows_labels _ _ (s, k) Hgs). right. exists r. split; [exact Hr |].
        apply in_group_spec. auto. }
      apply in_map_iff in Hg. destruct Hg as (x & Hx & Hin).
      exists x. rewrite Hx. auto.
  - intros k. rewrite sorted_keys_in, in_map_iff. split.
    + intros ([[s k'] a] & Heq & Hin). simpl in Heq. subst k'.
      assert (Hg : In (s, k) (map fst gs))
        by (apply in_map_iff; exists ((s, k), a); auto).
      apply (group_rows_labels _ _ (s, k) Hgs) in Hg.
      destruct Hg as [[] | (r & Hr & Hin')].
      apply in_group_spec in Hin'. destruct Hin' as (H1 & H2). simpl in H1, H2.
      exists r. repeat split; auto. congruence.
    + intros (r & Hr & Hks & Hkm).
      destruct (key_of (fst r)) as [s |] eqn:Es; [| congruence].
      assert (Hg : In (s, k) (map fst gs)).
      { apply (group_rows_labels _ _ (s, k) Hgs). right. exists r. split; [exact Hr |].
        apply in_group_spec. auto. }
      apply in_map_iff in Hg. destruct Hg as (x & Hx & Hin).
      exists x. rewrite Hx. auto.
Qed.

(** X21: where a station of the table has no present value for a measurement
    of the table (no row with both labels, or only missing values), the cell
    is NaN, not zero. *)
Theorem calculate_means_no_data_is_nan self df ss ms vs mt s k :
  weather_df self = Some df ->
  get_column "Weather_station_ID" df = Some ss ->
  get_column "Measurement" df = Some ms ->
  get_column "Value" df = Some vs ->
  fst (calculate_means self) = Ok (Some mt) ->
  In s (mt_index mt) ->
  In k (mt_columns mt) ->
  group_values (s, k) (combine ss (combine ms vs)) = [] ->
  mt_loc mt s k = Some PrimFloat.nan.
Proof.
  intros Hdf Hs Hm Hv Hrun Hin_s Hin_k Hnone.
  destruct (calculate_means_returns self Hdf Hs Hm Hv Hrun) as (gs & Hgs & ->).
  unfold unstack in *. simpl in Hin_s, Hin_k.
  unfold mt_loc. simpl.
  rewrite at_label_map by exact Hin_s.
  rewrite at_label_map by exact Hin_k.
  rewrite (group_rows_state (s, k) _ _ Hgs). simpl.
  destruct (state_after_none_cases (s, k) (combine ss (combine ms vs))) as [H | H];
    rewrite H; [reflexivity |].
  rewrite Hnone. reflexivity.
Qed.

Lemma group_values_extracted s kind ss res :
  group_values (s, KStr kind)
    (combine ss (combine (map (fun t => measurement_cell (fst t)) res)
                         (map (fun t => value_cell (snd t)) res)))
  = extracted_values s kind (combine ss res).
Proof.
  revert res. induction ss as [| c ss IH]; intros res; [reflexivity |].
  destruct res as [| [k v] res]; [reflexivity |].
  simpl. rewrite IH. unfold in_group, present. simpl.
  destruct k as [k |], v as [v |]; simpl.
  - destruct (key_of c) as [s' |]; [| reflexivity].
    unfold group_eqb. simpl.
    destruct (key_eqb s' s), (String.eqb k kind), (PrimFloat.is_nan v); reflexivity.
  - destruct (key_of c) as [s' |]; [| reflexivity].
    destruct (group_eqb (s', KStr k) (s, KStr kind)); reflexivity.
  - destruct (key_of c); reflexivity.
  - destruct (key_of c); reflexivity.
Qed.

(** X22: the two steps together: after [process_messages] has returned, the
    table of means holds, for a station and a kind for which some value was
    extracted, the arithmetic mean (the sum in row order over the count) of
    the values that [extract_measurement] gave under that kind on the
    messages of that station, when these values are exactly summable, so
    that the sum does not depend on how pandas adds. *)
Theorem means_of_extracted_values self df col ss res s kind :
  weather_df self = Some df ->
  get_column "Message" df = Some col ->
  get_column "Weather_station_ID" df = Some ss ->
  fst (apply_series extract_measurement col self) = Ok res ->
  is_ok (fst (process_messages self)) = true ->
  extracted_values s kind (combine ss res) <> [] ->
  exactly_summable (extracted_values s kind (combine ss res)) ->
  exists mt,
    fst (calculate_means (snd (process_messages self))) = Ok (Some mt)
    /\ mt_loc mt s (KStr kind)
       = Some (arithmetic_mean (extracted_values s kind (combine ss res))).
Proof.
  intros Hdf Hcol Hss Happ Hok Hne Hex.
  destruct (fst (process_messages self)) as [[df' |] | e] eqn:Hrun;
    [| | discriminate].
  - destruct (process_messages_returns_table self Hrun)
      as (df0 & col0 & res0 & Hdf0 & Hcol0 & Happ0 & _ & _ & -> & Hafter).
    assert (df0 = df) by congruence. subst df0.
    assert (col0 = col) by congruence. subst col0.
    assert (res0 = res) by congruence. subst res0.
    rewrite calculate_means_cases, Hafter.
    assert (Hss' : get_column "Weather_station_ID" (augmented df res) = Some ss)
      by (rewrite augmented_other_column by discriminate; exact Hss).
    rewrite (groupby_mean_by_columns _ Hss' (augmented_measurement df res)
               (augmented_value df res)).
    rewrite value_cells_numeric.
    set (rows := combine ss (combine (map (fun t => measurement_cell (fst t)) res)
                                     (map (fun t => value_cell (snd t)) res))).
    destruct (group_rows_succeeds (rows := rows) []) as (gs & Hgs).
    + apply rows_values_ok. apply numeric_column_values. apply value_cells_numeric.
    + rewrite Hgs. exists (unstack gs). split; [reflexivity |].
      assert (Hvals : group_values (s, KStr kind) rows
                      = extracted_values s kind (combine ss res))
        by apply group_values_extracted.
      rewrite <- Hvals in *.
      rewrite <- mean_of_group by assumption.
      apply mt_loc_unstack.
      rewrite (group_rows_state (s, KStr kind) _ _ Hgs). simpl.
      apply state_after_none. exact Hne.
  - exfalso. revert Hrun. rewrite process_messages_cases, Hdf, Hcol.
    destruct (apply_series extract_measurement col self) as [[r | e] s1];
      [| simpl; discriminate].
    destruct r; [simpl; discriminate |].
    destruct (Nat.eqb (length col) (nrows df)); simpl; discriminate.
Qed.

End MoreFacts.

(** * The further properties on the sample objects *)

(** "verbose" is no level of the class. *)
Lemma initialize_logging_defaults_to_info_witness :
  initialize_logging "verbose" fresh_logger = initialize_logging "INFO" fresh_logger.
Proof.
  apply (initialize_logging_defaults_to_info "verbose" fresh_logger).
  - vm_compute. discriminate.
  - vm_compute. discriminate.
Defined.

(** The object constructed with NONE. *)
Lemma disabled_logger_records_nothing_witness :
  logger (snd (process priority_processor)) = logger priority_processor
  /\ logger (snd (process_messages priority_processor)) = logger priority_processor
  /\ logger (snd (calculate_means priority_processor)) = logger priority_processor
  /\ logger (snd (extract_measurement (CStr "fog") priority_processor))
     = logger priority_processor.
Proof.
  apply (@disabled_logger_records_nothing fragment_lib priority_processor (CStr "fog")).
  reflexivity.
Defined.

(** A missing message. *)
Lemma extract_measurement_rejects_non_str_witness :
  fst (extract_measurement CNone sample_processor) = Raise TypeError.
Proof.
  apply (@extract_measurement_rejects_non_str fragment_lib sample_processor CNone
           "Rainfall" "(\d+(\.\d+)?)\s?mm" [("Temperature", "(\d+(\.\d+)?)\s?C")]).
  - reflexivity.
  - vm_compute. discriminate.
  - intros s. discriminate.
Defined.

(** A parenthesis that is never closed. *)
Lemma extract_measurement_bad_pattern_witness :
  fst (extract_measurement (CStr "5C") broken_processor) = Raise ReError.
Proof.
  apply (@extract_measurement_bad_pattern fragment_lib broken_processor (CStr "5C")
           [] "Rainfall" "(\d+" [("Temperature", "(\d+)C")]).
  - reflexivity.
  - constructor.
  - vm_compute. reflexivity.
Defined.

(** The groups of "21.5" are "21.5" and ".5"; the value is 21.5. *)
Lemma extract_measurement_value_from_first_group_witness :
  fst (extract_measurement (CStr "temp 21.5 C") priority_processor)
  = Ok (Some "Temperature", Some 21.5%float).
Proof.
  rewrite (@extract_measurement_value_from_first_group fragment_lib
             priority_processor (CStr "temp 21.5 C")
             [("Rainfall", "(\d+(\.\d+)?)\s?mm")]
             "Temperature" "(\d+(\.\d+)?)\s?C"
             [("Reading", "(\d+)")]
             [Some "21.5"; Some ".5"]
             ltac:(reflexivity)
             ltac:(constructor; [vm_compute; reflexivity | constructor])
             ltac:(vm_compute; reflexivity)).
  vm_compute. reflexivity.
Defined.

Lemma process_messages_missing_message_column_witness :
  process_messages no_message_processor
  = (Raise (KeyError "Message"), no_message_processor).
Proof.
  apply (@process_messages_missing_message_column fragment_lib
           no_message_processor no_message_df).
  - reflexivity.
  - reflexivity.
Defined.

Lemma process_messages_row_by_row_witness :
  exists ms vs,
    get_column "Measurement" processed_df = Some ms
    /\ get_column "Value" processed_df = Some vs
    /\ length ms = nrows processed_df /\ length vs = nrows processed_df
    /\ forall i c,
         nth_error [CStr "rain 10 mm"; CStr "rain 20.0 mm"; CStr "temp 21.5 C"; CStr "fog"] i
         = Some c ->
         exists k v,
           fst (extract_measurement c loaded_sample) = Ok (k, v)
           /\ nth_error ms i = Some (measurement_cell k)
           /\ nth_error vs i = Some (value_cell v).
Proof.
  apply (@process_messages_row_by_row fragment_lib loaded_sample sample_df).
  - reflexivity.
  - reflexivity.
  - vm_compute. reflexivity.
Defined.

(** The rows of the processed sample table: three with a kind and a value,
    one with neither. *)
Lemma process_messages_rows_all_or_nothing_witness :
  exists ms vs,
    get_column "Measurement" processed_df = Some ms
    /\ get_column "Value" processed_df = Some vs
    /\ Forall2 (fun m v =>
                  (m = CNone /\ v = CNone)
                  \/ (exists k x, m = CStr k /\ v = CFloat x)) ms vs.
Proof.
  apply (@process_messages_rows_all_or_nothing fragment_lib loaded_sample processed_df).
  vm_compute. reflexivity.
Defined.

Lemma process_messages_keeps_well_formed_witness : well_formed processed_df.
Proof.
  apply (@process_messages_keeps_well_formed fragment_lib loaded_sample sample_df).
  - reflexivity.
  - repeat constructor.
  - vm_compute. reflexivity.
Defined.

Lemma process_messages_succeeds_witness :
  exists df',
    fst (process_messages loaded_sample) = Ok (Some df')
    /\ weather_df (snd (process_messages loaded_sample)) = Some df'.
Proof.
  apply (@process_messages_succeeds fragment_lib loaded_sample sample_df
           [CStr "rain 10 mm"; CStr "rain 20.0 mm"; CStr "temp 21.5 C"; CStr "fog"]).
  - reflexivity.
  - repeat constructor.
  - reflexivity.
  - simpl. discriminate.
  - repeat (constructor; [vm_compute; reflexivity |]). constructor.
Defined.

(** The missing message of station S4 stops the whole call. *)
Lemma process_messages_one_bad_row_witness :
  exists e,
    fst (process_messages gap_processor) = Raise e
    /\ weather_df (snd (process_messages gap_processor)) = Some gap_df.
Proof.
  apply (@process_messages_one_bad_row fragment_lib gap_processor gap_df
           [CStr "rain 3 mm"; CStr "fog"; CNone] CNone).
  - reflexivity.
  - reflexivity.
  - simpl. auto.
  - vm_compute. reflexivity.
Defined.

Lemma process_load_failure_witness :
  process unreachable_processor = (Raise (IOError "nowhere.csv"), unreachable_processor).
Proof.
  apply (@process_load_failure fragment_lib unreachable_processor (IOError "nowhere.csv")).
  reflexivity.
Defined.

(** The table with no row loads, and then cannot be processed. *)
Lemma process_extraction_failure_witness :
  fst (process empty_processor) = Raise ValueError
  /\ weather_df (snd (process empty_processor)) = Some empty_df.
Proof.
  apply (@process_extraction_failure fragment_lib empty_processor empty_df ValueError).
  - reflexivity.
  - vm_compute. reflexivity.
Defined.

(** The sample table, and a table of two rows that has no station column. *)
Lemma calculate_means_after_extraction_witness :
  (exists mt,
     fst (calculate_means (snd (process_messages loaded_sample))) = Ok (Some mt))
  /\ fst (calculate_means (snd (process_messages no_station_processor)))
     = Raise ValueError.
Proof.
  split.
  - exact (@calculate_means_after_extraction fragment_lib loaded_sample processed_df
             ltac:(vm_compute; reflexivity)).
  - exact (@calculate_means_after_extraction fragment_lib no_station_processor
             (augmented no_station_df
                [(Some "Rainfall", Some 1%float); (Some "Temperature", Some 2%float)])
             ltac:(vm_compute; reflexivity)).
Defined.

(** Station S3, whose only message is "fog", is no row of the table. *)
Lemma calculate_means_labels_witness :
  (forall s, In s (mt_index sample_means)
             <-> exists r,
                   In r (combine [CStr "S1"; CStr "S1"; CStr "S2"; CStr "S3"]
                           (combine [CStr "Rainfall"; CStr "Rainfall";
                                     CStr "Temperature"; CNone]
                                    [CFloat 10; CFloat 20; CFloat 21.5; CNone]))
                   /\ key_of (fst r) = Some s
                   /\ key_of (fst (snd r)) <> None)
  /\ (forall k, In k (mt_columns sample_means)
                <-> exists r,
                      In r (combine [CStr "S1"; CStr "S1"; CStr "S2"; CStr "S3"]
                              (combine [CStr "Rainfall"; CStr "Rainfall";
                                        CStr "Temperature"; CNone]
                                       [CFloat 10; CFloat 20; CFloat 21.5; CNone]))
                      /\ key_of (fst r) <> None
                      /\ key_of (fst (snd r)) = Some k).
Proof.
  apply (@calculate_means_labels fragment_lib
           (set_weather_df (Some processed_df) sample_processor) processed_df).
  - reflexivity.
  - vm_compute. reflexivity.
  - vm_compute. reflexivity.
  - vm_compute. reflexivity.
  - vm_compute. reflexivity.
Defined.

(** Station S1 reported no temperature. *)
Lemma calculate_means_no_data_is_nan_witness :
  mt_loc sample_means (KStr "S1") (KStr "Temperature") = Some PrimFloat.nan.
Proof.
  apply (@calculate_means_no_data_is_nan fragment_lib
           (set_weather_df (Some processed_df) sample_processor) processed_df
           [CStr "S1"; CStr "S1"; CStr "S2"; CStr "S3"]
           [CStr "Rainfall"; CStr "Rainfall"; CStr "Temperature"; CNone]
           [CFloat 10; CFloat 20; CFloat 21.5; CNone]).
  - reflexivity.
  - vm_compute. reflexivity.
  - vm_compute. reflexivity.
  - vm_compute. reflexivity.
  - vm_compute. reflexivity.
  - simpl. auto.
  - simpl. auto.
  - vm_compute. reflexivity.
Defined.

(** From the messages "rain 10 mm" and "rain 20.0 mm" of S1 to the mean 15. *)
Lemma means_of_extracted_values_witness :
  exists mt,
    fst (calculate_means (snd (process_messages loaded_sample))) = Ok (Some mt)
    /\ mt_loc mt (KStr "S1") (KStr "Rainfall") = Some 15%float.
Proof.
  destruct (@means_of_extracted_values fragment_lib loaded_sample sample_df
              [CStr "rain 10 mm"; CStr "rain 20.0 mm"; CStr "temp 21.5 C"; CStr "fog"]
              [CStr "S1"; CStr "S1"; CStr "S2"; CStr "S3"]
              sample_result (KStr "S1") "Rainfall"
              eq_refl eq_refl eq_refl
              ltac:(vm_compute; reflexivity)
              ltac:(vm_compute; reflexivity)
              ltac:(vm_compute; discriminate)
              ltac:(vm_compute; repeat split))
    as (mt & Hrun & Hloc).
  exists mt. split; [exact Hrun |].
  rewrite Hloc. vm_compute. reflexivity.
Defined.
